(** * Home Assistant integration adapters: MySensors config flow, XS1 switch
    platform and ZHA diagnostics.

    A shallow embedding of
      - homeassistant/components/mysensors/config_flow.py
      - homeassistant/components/xs1/switch.py
      - homeassistant/components/zha/diagnostics.py
    together with the properties their specification states about them. *)

From Stdlib Require Import ZArith QArith Qround Lqa String Ascii List.
From stdpp Require Import gmap strings list fin_maps pretty.

#[global] Set Warnings "-register-all".
Close Scope Q_scope.
Local Open Scope string_scope.

(** * Python values, dictionaries and exceptions *)

Module Py.

(** Keys of the dictionaries the adapters build: strings (field names, hex
    cluster ids) and integers (endpoint ids, radio channels). *)
Inductive dkey :=
  | KStr (s : string)
  | KInt (n : Z).

#[export] Instance dkey_eq_dec : EqDecision dkey.
Proof. solve_decision. Defined.

(** The JSON-like values that travel through the adapters ([Any] in the
    type annotations). A float is kept as the rational it denotes. A
    dictionary is the list of its items in insertion order, as Python
    keeps it; [dict_set] below maintains the uniqueness of keys. *)
Inductive value :=
  | VNone
  | VBool (b : bool)
  | VInt (n : Z)
  | VFloat (q : Q)
  | VStr (s : string)
  | VList (vs : list value)
  | VDict (kvs : list (dkey * value)).

Abbreviation dict := (list (dkey * value)).

(** Induction over values that reaches the elements of lists and the
    values of dictionaries. *)
Section value_ind'.
Variable P : value → Prop.
Hypothesis HNone : P VNone.
Hypothesis HBool : ∀ b, P (VBool b).
Hypothesis HInt : ∀ n, P (VInt n).
Hypothesis HFloat : ∀ q, P (VFloat q).
Hypothesis HStr : ∀ s, P (VStr s).
Hypothesis HList : ∀ vs, Forall P vs → P (VList vs).
Hypothesis HDict : ∀ kvs, Forall (λ kv, P kv.2) kvs → P (VDict kvs).

Fixpoint value_ind' (v : value) : P v :=
  match v with
  | VNone => HNone
  | VBool b => HBool b
  | VInt n => HInt n
  | VFloat q => HFloat q
  | VStr s => HStr s
  | VList vs =>
      HList vs
        ((fix go (l : list value) : Forall P l :=
            match l with
            | [] => Forall_nil_2 P
            | x :: l' => Forall_cons_2 P x l' (value_ind' x) (go l')
            end) vs)
  | VDict kvs =>
      HDict kvs
        ((fix go (l : dict) : Forall (λ kv, P kv.2) l :=
            match l with
            | [] => Forall_nil_2 _
            | kv :: l' => Forall_cons_2 (λ kv, P kv.2) kv l' (value_ind' kv.2) (go l')
            end) kvs)
  end.
End value_ind'.

(** ** Dictionaries in insertion order *)

Section assoc.
Context {K V : Type} `{EqDecision K}.

(** [d.get(k)] / [k in d]. *)
Fixpoint dict_get (k : K) (d : list (K * V)) : option V :=
  match d with
  | [] => None
  | (k', v) :: d' => if decide (k' = k) then Some v else dict_get k d'
  end.

(** [d[k] = v]: an existing key keeps its place, a new one goes last. *)
Fixpoint dict_set (k : K) (v : V) (d : list (K * V)) : list (K * V) :=
  match d with
  | [] => [(k, v)]
  | (k', v') :: d' =>
      if decide (k' = k) then (k', v) :: d' else (k', v') :: dict_set k v d'
  end.

(** A dictionary display [{k1: v1, ..., kn: vn}] and the unpacking
    [{**d, ...}]: the items are stored from left to right. *)
Definition dict_update (d : list (K * V)) (items : list (K * V)) : list (K * V) :=
  fold_left (λ acc kv, dict_set kv.1 kv.2 acc) items d.

Definition dict_of (items : list (K * V)) : list (K * V) := dict_update [] items.

(** A dictionary comprehension [{kf(a): vf(a) for a in l}]. *)
Definition dict_comp {A} (kf : A → K) (vf : A → V) (l : list A) : list (K * V) :=
  dict_of (map (λ a, (kf a, vf a)) l).

Definition dict_keys (d : list (K * V)) : list K := map fst d.

(** The item a comprehension over [m.items()] stores for the entry
    [(i, a)] of [m]: its key is [kf i], and [g i a] gives its value, or
    nothing when the condition of the comprehension fails. *)
Definition item {I A} (kf : I → K) (g : I → A → option V) (ia : I * A) : option (K * V) :=
  (kf ia.1,.) <$> g ia.1 ia.2.

End assoc.

(** ** Truth value and equality *)

(** The number a value denotes when Python compares it numerically
    ([True == 1], [1 == 1.0]). *)
Definition py_num (v : value) : option Q :=
  match v with
  | VBool b => Some (inject_Z (if b then 1 else 0))
  | VInt n => Some (inject_Z n)
  | VFloat q => Some q
  | _ => None
  end.

(** [a == b]. Numbers compare by value, lists element by element,
    dictionaries by their items whatever the order. *)
Fixpoint py_eqb (a b : value) : bool :=
  match a, b with
  | VNone, VNone => true
  | VStr s, VStr t => bool_decide (s = t)
  | VList xs, VList ys =>
      (fix go (xs ys : list value) : bool :=
         match xs, ys with
         | [], [] => true
         | x :: xs', y :: ys' => py_eqb x y && go xs' ys'
         | _, _ => false
         end) xs ys
  | VDict xs, VDict ys =>
      bool_decide (length xs = length ys) &&
      (fix go (xs : dict) : bool :=
         match xs with
         | [] => true
         | kv :: xs' =>
             match dict_get kv.1 ys with
             | Some y => py_eqb kv.2 y && go xs'
             | None => false
             end
         end) xs
  | _, _ =>
      match py_num a, py_num b with
      | Some p, Some q => Qeq_bool p q
      | _, _ => false
      end
  end.

(** [bool(v)], the test of [if v:] and [v or w]. *)
Definition truthy (v : value) : bool :=
  match v with
  | VNone => false
  | VBool b => b
  | VInt n => negb (n =? 0)%Z
  | VFloat q => negb (Qeq_bool q 0)
  | VStr s => negb (bool_decide (s = ""))
  | VList vs => negb (bool_decide (vs = []))
  | VDict kvs => match kvs with [] => false | _ => true end
  end.

(** ** Exceptions *)

Inductive exn :=
  | KeyError (k : string)
  | TypeError (msg : string)
  | Invalid (msg : string)          (* voluptuous.Invalid *)
  | OtherError (msg : string).

Inductive result (A : Type) :=
  | Ok (a : A)
  | Raise (e : exn).
Arguments Ok {A} a.
Arguments Raise {A} e.

#[export] Instance result_ret : MRet result := @Ok.

#[export] Instance result_bind : MBind result := λ A B f m,
  match m with
  | Ok a => f a
  | Raise e => Raise e
  end.

#[export] Instance result_fmap : FMap result := λ A B f m,
  match m with
  | Ok a => Ok (f a)
  | Raise e => Raise e
  end.

(** [try: m except vol.Invalid: handler else: orelse]; any other exception
    escapes. *)
Definition try_except_Invalid {A B} (m : result A) (handler : B) (orelse : A → result B)
    : result B :=
  match m with
  | Ok a => orelse a
  | Raise (Invalid _) => Ok handler
  | Raise e => Raise e
  end.

(** [str(v)] as f-strings apply it; [repr] stands for the rendering of
    floats and containers, which is left to the interpreter. *)
Definition py_str (repr : value → string) (v : value) : string :=
  match v with
  | VStr s => s
  | VNone => "None"
  | VBool true => "True"
  | VBool false => "False"
  | VInt n => pretty n
  | _ => repr v
  end.

(** [d[k]] on a string-keyed dictionary. *)
Definition subscript {V} (d : gmap string V) (k : string) : result V :=
  match d !! k with
  | Some v => Ok v
  | None => Raise (KeyError k)
  end.

(** The elements a comprehension [[f(a) for a in l]] computes, from left to
    right; the first exception ends it. *)
Fixpoint for_each {A B} (f : A → result B) (l : list A) : result (list B) :=
  match l with
  | [] => Ok []
  | a :: l' => b ← f a; bs ← for_each f l'; Ok (b :: bs)
  end.

(** The result of a computation that went through, if it did. *)
Definition to_option {A} (m : result A) : option A :=
  match m with
  | Ok a => Some a
  | Raise _ => None
  end.

(** ** Floats *)

(** Python floats are IEEE binary64 numbers. A finite float is kept as the
    rational it is ([VFloat]); [round] takes the exact result of an
    operation to the float nearest to it. Of rounding the properties use
    that it keeps the order and leaves the integers up to 2^53, which are
    floats, as they are. Infinities and NaN are not values of the model:
    the operations are used where the exact result is within the range of
    the finite floats. *)
Class Binary64 := {
  round : Q → Q;
  round_le (x y : Q) : (x <= y)%Q → (round x <= round y)%Q;
  round_int (z : Z) : (Z.abs z <= 2 ^ 53)%Z → (round (inject_Z z) == inject_Z z)%Q;
}.

(** [x * y] and [x / y] on floats. *)
Definition float_mul `{Binary64} (x y : Q) : Q := round (x * y).
Definition float_div `{Binary64} (x y : Q) : Q := round (x / y).

End Py.

Import Py.

(** * mysensors/config_flow.py *)

Module mysensors.

(** The names imported from [.const] and [.gateway]; their values are not
    part of config_flow.py, so the flow is stated for any of them. *)
Class Const := {
  CONF_BAUD_RATE : string;
  CONF_DEVICE : string;
  CONF_GATEWAY_TYPE : string;
  CONF_GATEWAY_TYPE_MQTT : string;
  CONF_GATEWAY_TYPE_SERIAL : string;
  CONF_GATEWAY_TYPE_TCP : string;
  CONF_PERSISTENCE_FILE : string;
  CONF_TOPIC_IN_PREFIX : string;
  CONF_TOPIC_OUT_PREFIX : string;
  CONF_VERSION : string;
  MQTT_COMPONENT : string;
}.

Definition DEFAULT_BAUD_RATE : Z := 115200.
Definition DEFAULT_TCP_PORT : Z := 5003.
Definition DEFAULT_VERSION : string := "1.4".

(** [s.endswith(suffix)]. *)
Fixpoint endswith (s suffix : string) : bool :=
  bool_decide (s = suffix) ||
  match s with
  | EmptyString => false
  | String _ s' => endswith s' suffix
  end.

(** [s.endswith((suffix1, ..., suffixn))]. *)
Definition endswith_any (s : string) (suffixes : list string) : bool :=
  existsb (endswith s) suffixes.

Definition validate_persistence_file (value : string) : result string :=
  if endswith_any value [".json"; ".pickle"] then Ok value
  else Raise (Invalid "Invalid file format. Please use `.json` or `.pickle`.").

(** ** Voluptuous schemas *)

(** A validator takes a value and returns it (possibly coerced) or raises. *)
Definition validator := value → result value.

(** The type [str] used as a validator. *)
Definition vol_str : validator := λ v,
  match v with
  | VStr _ => Ok v
  | _ => Raise (Invalid "expected str")
  end.

(** A function on strings used as a validator. *)
Definition on_str (f : string → result string) : validator := λ v,
  match v with
  | VStr s => VStr <$> f s
  | _ => Raise (TypeError "expected str")
  end.

(** [vol.All(v1, ..., vn)]: each validator is fed the output of the one
    before it. *)
Definition vol_All (vs : list validator) : validator := λ v,
  foldl (λ acc f, acc ≫= f) (Ok v) vs.

(** [vol.Required(key, default=..., description=...)] and [vol.Optional]. *)
Record Marker := {
  m_required : bool;
  m_schema : string;
  m_default : option value;
  m_description : option dict;
}.

Definition vol_Required (key : string) (default : option value) (description : option dict) :=
  {| m_required := true; m_schema := key; m_default := default; m_description := description |}.
Definition vol_Optional (key : string) (default : option value) (description : option dict) :=
  {| m_required := false; m_schema := key; m_default := default; m_description := description |}.

(** A dictionary from markers to validators. Markers hash and compare by
    the key they wrap. *)
Definition schema_dict := list (Marker * validator).

Fixpoint schema_get (key : string) (d : schema_dict) : option (Marker * validator) :=
  match d with
  | [] => None
  | (m, v) :: d' => if decide (m_schema m = key) then Some (m, v) else schema_get key d'
  end.

Fixpoint schema_set (m : Marker) (v : validator) (d : schema_dict) : schema_dict :=
  match d with
  | [] => [(m, v)]
  | (m', v') :: d' =>
      if decide (m_schema m' = m_schema m) then (m', v) :: d' else (m', v') :: schema_set m v d'
  end.

Definition schema_of (items : list (Marker * validator)) : schema_dict :=
  fold_left (λ acc mv, schema_set mv.1 mv.2 acc) items [].

Record Schema := { schema : schema_dict }.

(** Unpacking a dictionary [d] into keyword arguments (two stars before
    [d] in a call): the keys of [d] become the names of the arguments and
    must be strings. Every key of a schema dictionary is a marker object. *)
Definition keywords (d : schema_dict) : result (list (string * validator)) :=
  match d with
  | [] => Ok []
  | _ :: _ => Raise (TypeError "keywords must be strings")
  end.

(** ** The host's side of the flow *)

Record ConfigEntry := { data : gmap string value }.

(** What a step hands back to the flow manager: [async_show_menu],
    [async_abort], [async_create_entry] and [async_show_form]. *)
Inductive FlowResult :=
  | ShowMenu (step_id : string) (menu_options : list string)
  | Abort (reason : string)
  | CreateEntry (title : string) (entry_data : gmap string value)
  | ShowForm (step_id : string) (data_schema : Schema) (errors : gmap string string).

(** The flow handler as the steps see it: [self.hass.config.components] and
    [self._async_current_entries()]. *)
Record Flow := {
  components : gset string;
  current_entries : list ConfigEntry;
}.

(** The helpers config_flow.py calls and does not define. *)
Class Helpers := {
  valid_subscribe_topic : value → result value;
  _validate_version : value → gmap string string;
  is_socket_address : value → result value;
  is_serial_port : value → result value;
  _validate_persistence_file : Flow → value → gmap string string → gmap string string;
  _is_same_device : string → gmap string value → ConfigEntry → bool;
  try_connect : string → gmap string value → bool;
  positive_int : validator;
  repr : value → string;
}.

Section flow.
Context `{Const, Helpers}.

Definition async_step_user (self : Flow) (user_input : option (gmap string value))
    : result FlowResult :=
  Ok (ShowMenu "select_gateway_type" ["gw_serial"; "gw_tcp"; "gw_mqtt"]).

Definition _check_topic_exists (self : Flow) (topic : value) : bool :=
  existsb
    (λ other_config,
       py_eqb topic (default VNone (data other_config !! CONF_TOPIC_IN_PREFIX))
       || py_eqb topic (default VNone (data other_config !! CONF_TOPIC_OUT_PREFIX)))
    (current_entries self).

(** The subscript [user_input[topic_key]] is evaluated inside the [try];
    its [KeyError] is not a [vol.Invalid] and escapes. *)
Definition _validate_topic (self : Flow) (user_input : gmap string value)
    (errors : gmap string string) (topic_key : string) : result (gmap string string) :=
  topic ← subscript user_input topic_key;
  try_except_Invalid (valid_subscribe_topic topic)
    (<[topic_key := "invalid_" +:+ topic_key +:+ "_topic"]> errors)
    (λ _,
       topic ← subscript user_input topic_key;
       if _check_topic_exists self topic
       then Ok (<[topic_key := "duplicate_" +:+ topic_key]> errors)
       else Ok errors).

Definition _default_device (gw_type : string) : string :=
  if decide (gw_type = CONF_GATEWAY_TYPE_SERIAL) then "/dev/ttyACM0" else "127.0.0.1".

Definition _default_baud_rate (gw_type : string) : Z :=
  if decide (gw_type = CONF_GATEWAY_TYPE_SERIAL) then DEFAULT_BAUD_RATE else DEFAULT_TCP_PORT.

Definition _get_common_schema (user_input : gmap string value) : schema_dict :=
  schema_of [
    (vol_Required CONF_VERSION None
       (Some (dict_of [(KStr "suggested_value",
                        default (VStr DEFAULT_VERSION) (user_input !! CONF_VERSION))])),
     vol_str);
    (vol_Optional CONF_PERSISTENCE_FILE
       (Some (default (VStr "") (user_input !! CONF_PERSISTENCE_FILE))) None,
     vol_All [vol_str; on_str validate_persistence_file])
  ].

(** The local [base_schema] of [_get_gateway_schema]. *)
Definition base_schema (user_input : gmap string value) (gw_type : string) : schema_dict :=
  schema_of [
    (vol_Required CONF_DEVICE
       (Some (default (VStr (_default_device gw_type)) (user_input !! CONF_DEVICE))) None,
     vol_str);
    (vol_Optional CONF_BAUD_RATE (Some (VInt (_default_baud_rate gw_type))) None,
     positive_int)
  ].

(** [vol.Schema(base_schema, **self._get_common_schema(user_input))]. *)
Definition _get_gateway_schema (user_input : gmap string value) (gw_type : string)
    : result Schema :=
  _ ← keywords (_get_common_schema user_input);
  Ok {| schema := base_schema user_input gw_type |}.

Definition _async_create_entry (user_input : gmap string value) (gw_type : string)
    : result FlowResult :=
  device ← subscript user_input CONF_DEVICE;
  Ok (CreateEntry (py_str repr device) (<[CONF_GATEWAY_TYPE := VStr gw_type]> user_input)).

(** [errors] is updated in place and returned. *)
Definition validate_common (self : Flow) (gw_type : string) (errors : gmap string string)
    (user_input : gmap string value) : result (gmap string string) :=
  version ← subscript user_input CONF_VERSION;
  let errors := _validate_version version ∪ errors in
  errors ←
    (if decide (gw_type ≠ CONF_GATEWAY_TYPE_MQTT) then
       let verification_func :=
         if decide (gw_type = CONF_GATEWAY_TYPE_TCP) then is_socket_address
         else is_serial_port in
       device ← subscript user_input CONF_DEVICE;
       try_except_Invalid (verification_func device)
         (<[CONF_DEVICE := if decide (gw_type = CONF_GATEWAY_TYPE_TCP)
                           then "invalid_ip" else "invalid_serial"]> errors)
         (λ _, Ok errors)
     else Ok errors);
  let persistence_file := default VNone (user_input !! CONF_PERSISTENCE_FILE) in
  let errors :=
    if truthy persistence_file
    then _validate_persistence_file self persistence_file errors
    else errors in
  let errors :=
    if decide (errors = ∅) then
      if existsb (_is_same_device gw_type user_input) (current_entries self)
      then <["base" := "already_configured"]> errors
      else errors
    else errors in
  let errors :=
    if decide (errors = ∅) then
      if try_connect gw_type user_input then errors
      else <["base" := "cannot_connect"]> errors
    else errors in
  Ok errors.

(** The three validation statements of [_async_create_gateway_entry], run
    on the fresh [errors] dictionary. The last one merges the dictionary
    [validate_common] returns into [errors], which is that same object. *)
Definition validation (self : Flow) (gw_type : string) (user_input : gmap string value)
    : result (gmap string string) :=
  errors ← _validate_topic self user_input ∅ CONF_TOPIC_IN_PREFIX;
  errors ← _validate_topic self user_input errors CONF_TOPIC_OUT_PREFIX;
  returned ← validate_common self gw_type errors user_input;
  Ok (returned ∪ returned).

Definition _async_create_gateway_entry (self : Flow) (user_input : option (gmap string value))
    (gw_type : string) (step_id : string) : result FlowResult :=
  let show_form (user_input : gmap string value) (errors : gmap string string) :=
    schema ← _get_gateway_schema user_input gw_type;
    Ok (ShowForm step_id schema errors) in
  match user_input with
  | Some user_input =>
      errors ← validation self gw_type user_input;
      if decide (errors = ∅) then _async_create_entry user_input gw_type
      else show_form user_input errors
  | None => show_form ∅ ∅
  end.

Definition async_step_gw_serial (self : Flow) (user_input : option (gmap string value)) :=
  _async_create_gateway_entry self user_input CONF_GATEWAY_TYPE_SERIAL "gw_serial".

Definition async_step_gw_tcp (self : Flow) (user_input : option (gmap string value)) :=
  _async_create_gateway_entry self user_input CONF_GATEWAY_TYPE_TCP "gw_tcp".

Definition async_step_gw_mqtt (self : Flow) (user_input : option (gmap string value)) :=
  if decide (MQTT_COMPONENT ∉ components self) then Ok (Abort "mqtt_required")
  else _async_create_gateway_entry self user_input CONF_GATEWAY_TYPE_MQTT "gw_mqtt".

End flow.

End mysensors.

(** * xs1/switch.py *)

Module xs1.

(** [xs1_api_client.api_constants.ActuatorType]: the two members the
    platform tests for, and the others by name. *)
Inductive ActuatorType :=
  | SWITCH
  | DIMMER
  | OTHER (name : string).

#[export] Instance ActuatorType_eq_dec : EqDecision ActuatorType.
Proof. solve_decision. Defined.

(** The actuator objects of the vendor client. [api] is the state of the
    client (and of the XS1 gateway behind it); an [actuator] is a handle
    to one of its actuators. *)
Class XS1Api (api actuator : Type) := {
  act_type : actuator → api → ActuatorType;
  act_name : actuator → api → string;
  act_value : actuator → api → value;
  act_turn_on : actuator → api → api;
  act_turn_off : actuator → api → api;
}.

Section platform.
Context {api actuator : Type} `{XS1Api api actuator}.

(** Modelled from the spec: [XS1DeviceEntity] (xs1/__init__.py) is not part
    of switch.py; the entity keeps the actuator it exposes in [device]. *)
Record XS1SwitchEntity := { device : actuator }.

Definition name (self : XS1SwitchEntity) (st : api) : string :=
  act_name (device self) st.

Definition is_on (self : XS1SwitchEntity) (st : api) : bool :=
  py_eqb (act_value (device self) st) (VInt 100).

Definition turn_on (self : XS1SwitchEntity) (st : api) : api :=
  act_turn_on (device self) st.

Definition turn_off (self : XS1SwitchEntity) (st : api) : api :=
  act_turn_off (device self) st.

(** [actuators] is [hass.data[COMPONENT_DOMAIN][ACTUATORS]]; [add_entities]
    is the host's callback, acting on the host's state [P]. *)
Definition setup_platform {P : Type} (actuators : list actuator) (st : api)
    (add_entities : list XS1SwitchEntity → P → P) : P → P :=
  let switch_entities :=
    fold_left
      (λ switch_entities actuator,
         if bool_decide (act_type actuator st = SWITCH)
            || bool_decide (act_type actuator st = DIMMER)
         then (switch_entities ++ [{| device := actuator |}])%list
         else switch_entities)
      actuators [] in
  add_entities switch_entities.

End platform.

Arguments XS1SwitchEntity : clear implicits.

End xs1.

(** * zha/diagnostics.py *)

Module zha.

(** The names imported from [homeassistant.const], [.core.const],
    [zigpy.config] and [zigpy.types], and the placeholder
    [async_redact_data] writes. *)
Class Const := {
  ATTR_ATTRIBUTE_NAME : string;
  ATTR_DEVICE_TYPE : string;
  ATTR_IEEE : string;
  ATTR_IN_CLUSTERS : string;
  ATTR_OUT_CLUSTERS : string;
  ATTR_PROFILE_ID : string;
  ATTR_VALUE : string;
  CONF_ALARM_MASTER_CODE : string;
  CONF_ID : string;
  CONF_NAME : string;
  CONF_NWK_EXTENDED_PAN_ID : string;
  CONF_UNIQUE_ID : string;
  UNKNOWN : string;
  ALL_CHANNELS : Z;
  REDACTED : string;
}.

Definition ATTRIBUTES : string := "attributes".
Definition CLUSTER_DETAILS : string := "cluster_details".
Definition UNSUPPORTED_ATTRIBUTES : string := "unsupported_attributes".

(** ** Rendering of ids: [f"0x{n:04x}"] *)

Definition hex_digit (d : N) : ascii :=
  match d with
  | 0 => "0" | 1 => "1" | 2 => "2" | 3 => "3" | 4 => "4" | 5 => "5" | 6 => "6"
  | 7 => "7" | 8 => "8" | 9 => "9" | 10 => "a" | 11 => "b" | 12 => "c"
  | 13 => "d" | 14 => "e" | _ => "f"
  end%N%char.

(** The digits of [n] in base 16, most significant first, in front of
    [acc]; [fuel] bounds the number of digits. *)
Fixpoint hex_digits (fuel : nat) (n : N) (acc : string) : string :=
  match fuel with
  | O => acc
  | S fuel' =>
      let acc' := String (hex_digit (n mod 16)) acc in
      if (n / 16 =? 0)%N then acc' else hex_digits fuel' (n / 16) acc'
  end.

(** [format(n, "x")]. *)
Definition format_x (n : N) : string :=
  hex_digits (S (N.to_nat (N.log2 n))) n "".

Fixpoint zeros (k : nat) : string :=
  match k with
  | O => ""
  | S k' => String "0" (zeros k')
  end.

(** Padding with zeros on the left up to [width] characters. *)
Definition zero_pad (width : nat) (s : string) : string :=
  zeros (width - String.length s) +:+ s.

(** [f"0x{n:04x}"]. *)
Definition format_0x04x (n : N) : string := "0x" +:+ zero_pad 4 (format_x n).

(** ** The zigpy objects the diagnostics read *)

Record ZCLAttributeDef := {
  attr_id : N;
  attr_name : string;
}.

(** A cluster: its attribute definitions by id, and the lookups the vendor
    class offers. [cluster.get(name)] reads the attribute cache and gives
    [None] for an attribute that has no value; [cluster.find_attribute]
    gives the definition of an attribute, by id or by name, and raises
    [KeyError] for one the cluster does not define. *)
Record Cluster := {
  ep_attribute : value;
  attributes : gmap N ZCLAttributeDef;
  get : string → value;
  find_attribute : dkey → result ZCLAttributeDef;
  unsupported_attributes : list dkey;
}.

Record Endpoint := {
  profile_id : option N;
  device_type : option N;
  in_clusters : gmap N Cluster;
  out_clusters : gmap N Cluster;
}.

(** [zigpy.Device]: endpoint 0 is the ZDO endpoint. *)
Record Device := { endpoints : gmap N Endpoint }.

(** Modelled from the spec: [ZHADevice] (zha/core/device.py) is not part of
    these sources. It wraps the zigpy device, and the device and cluster
    records are "not owned or mutated" by the diagnostics: its
    [zha_device_info] is a property, and every read of it assembles a new
    dictionary. The field below is what the property assembles; the
    dictionary object a read creates lives in the object store (see
    [new_dict]). *)
Record ZHADevice := {
  device : Device;
  zha_device_info : dict;
}.

(** The dictionary objects that exist, by their identity. *)
Abbreviation objects := (gmap nat dict).

(** A new dictionary object with the given content. *)
Definition new_dict (content : dict) (store : objects) : nat * objects :=
  let ref := fresh (dom store) in (ref, <[ref := content]> store).

(** [ref[k] = v] on the dictionary object [ref]. *)
Definition set_item (ref : nat) (k : dkey) (v : value) (store : objects) : objects :=
  alter (dict_set k v) ref store.

(** The content of the dictionary object [ref]. *)
Definition content (ref : nat) (store : objects) : dict := default [] (store !! ref).

(** Objects as [shallow_asdict] tells them apart: a dataclass instance with
    its fields, an object with an [as_dict] method (given by what the
    method returns), or anything else. *)
Inductive pyobj :=
  | Dataclass (fields : list (string * pyobj))
  | HasAsDict (as_dict : value)
  | Plain (v : value).

(** [energy_scan] gives the energy measured on each channel, a float. *)
Record ControllerApplication := {
  energy_scan : Z → Z → Z → gmap Z Q;
  state : pyobj;
}.

Record ZHAData := { yaml_config : value }.
Record ZHAGateway := { application_controller : ControllerApplication }.
Record ConfigEntry := { config_entry_as_dict : dict }.
Record DeviceEntry := { id : string }.

(** The helpers diagnostics.py imports, over the host object [Hass], and
    the profile table of zigpy: a profile gives the name of each of its
    device types. *)
Class Helpers (Hass : Type) := {
  get_zha_data : Hass → ZHAData;
  get_zha_gateway : Hass → ZHAGateway;
  async_get_zha_device : Hass → string → result ZHADevice;
  version : string → string;
  PROFILES : gmap N (N → string);
}.

Definition opt_int (n : option N) : value :=
  match n with
  | Some n => VInt (Z.of_N n)
  | None => VNone
  end.

Definition is_not_None (v : value) : bool :=
  match v with
  | VNone => false
  | _ => true
  end.

(** [value is None or (isinstance(value, str) and not value)]. *)
Definition is_blank (v : value) : bool :=
  match v with
  | VNone => true
  | VStr EmptyString => true
  | _ => false
  end.

(** [key in to_redact], for a set of strings. *)
Definition listed (k : dkey) (to_redact : gset string) : bool :=
  match k with
  | KStr s => bool_decide (s ∈ to_redact)
  | KInt _ => false
  end.

(** Modelled from the spec: [async_redact_data]
    (homeassistant/components/diagnostics/util.py) is not part of these
    sources. It "redacts sensitive fields", and is modelled as the host's
    helper of that name works: data that is neither a dictionary nor a list
    is returned as it is; the elements of a list are redacted in turn; in a
    dictionary a value that is [None] or the empty string is kept, any
    other value of a key listed in [to_redact] is replaced by the
    placeholder, and the remaining values are redacted in turn. *)
Fixpoint async_redact_data (placeholder : string) (data : value) (to_redact : gset string)
    : value :=
  match data with
  | VDict kvs =>
      VDict (map (λ kv,
                    (kv.1,
                     if is_blank kv.2 then kv.2
                     else if listed kv.1 to_redact then VStr placeholder
                     else async_redact_data placeholder kv.2 to_redact)) kvs)
  | VList vs => VList (map (λ v, async_redact_data placeholder v to_redact) vs)
  | _ => data
  end.

Fixpoint shallow_asdict (obj : pyobj) : value :=
  match obj with
  | Dataclass fields =>
      VDict (fold_left
               (λ result field, dict_set (KStr field.1) (shallow_asdict field.2) result)
               fields [])
  | HasAsDict d => d
  | Plain v => v
  end.

Section diagnostics.
Context `{Const} `{Binary64} {Hass : Type} `{Helpers Hass}.

Definition KEYS_TO_REDACT : gset string :=
  {[ ATTR_IEEE; CONF_UNIQUE_ID; CONF_ALARM_MASTER_CODE; "network_key";
     CONF_NWK_EXTENDED_PAN_ID; "partner_ieee" ]}.

(** The item of the unsupported-attributes section for [u_attr]: the key
    and the value each look the attribute up. *)
Definition unsupported_item (cluster : Cluster) (u_attr : dkey) : result (dkey * value) :=
  key_def ← find_attribute cluster u_attr;
  name_def ← find_attribute cluster u_attr;
  mret (KStr (format_0x04x (attr_id key_def)),
        VDict (dict_of [(KStr ATTR_ATTRIBUTE_NAME, VStr (attr_name name_def))])).

Definition get_cluster_attr_data (cluster : Cluster) : result dict :=
  let attributes_section :=
    dict_of
      (omap (λ '(attr_id, attr_def),
               let attr_value := get cluster (attr_name attr_def) in
               if is_not_None attr_value then
                 Some (KStr (format_0x04x attr_id),
                       VDict (dict_of [(KStr ATTR_ATTRIBUTE_NAME, VStr (attr_name attr_def));
                                       (KStr ATTR_VALUE, attr_value)]))
               else None)
            (map_to_list (attributes cluster))) in
  unsupported ← for_each (unsupported_item cluster) (unsupported_attributes cluster);
  mret (dict_of [(KStr ATTRIBUTES, VDict attributes_section);
                 (KStr UNSUPPORTED_ATTRIBUTES, VDict (dict_of unsupported))]).

(** The local [endpoint_key] of [get_endpoint_cluster_attr_data]. *)
Definition endpoint_key (endpoint : Endpoint) : string :=
  match profile_id endpoint ≫= (PROFILES !!.), device_type endpoint with
  | Some DeviceType, Some device_type => DeviceType device_type
  | _, _ => UNKNOWN
  end.

(** The item of a clusters dictionary for one cluster. *)
Definition cluster_item (ic : N * Cluster) : result (dkey * value) :=
  data ← get_cluster_attr_data ic.2;
  mret (KStr (format_0x04x ic.1),
        VDict (dict_update (dict_of [(KStr "endpoint_attribute", ep_attribute ic.2)]) data)).

(** The dictionary built for the in- or out-clusters of an endpoint. *)
Definition clusters_section (clusters : gmap N Cluster) : result dict :=
  items ← for_each cluster_item (map_to_list clusters);
  mret (dict_of items).

(** The dictionary stored under [cluster_details[ep_id]]. *)
Definition endpoint_details (endpoint : Endpoint) : result dict :=
  let endpoint_key := endpoint_key endpoint in
  ins ← clusters_section (in_clusters endpoint);
  outs ← clusters_section (out_clusters endpoint);
  mret (dict_of [
    (KStr ATTR_DEVICE_TYPE,
     VDict (dict_of [(KStr CONF_NAME, VStr endpoint_key);
                     (KStr CONF_ID, opt_int (device_type endpoint))]));
    (KStr ATTR_PROFILE_ID, opt_int (profile_id endpoint));
    (KStr ATTR_IN_CLUSTERS, VDict ins);
    (KStr ATTR_OUT_CLUSTERS, VDict outs)
  ]).

(** One turn of the loop over the endpoints. *)
Definition endpoint_step (cluster_details : result dict) (item : N * Endpoint)
    : result dict :=
  cluster_details ← cluster_details;
  if decide (item.1 = 0%N) then mret cluster_details
  else
    details ← endpoint_details item.2;
    mret (dict_set (KInt (Z.of_N item.1)) (VDict details) cluster_details).

Definition get_endpoint_cluster_attr_data (zha_device : ZHADevice) : result dict :=
  fold_left endpoint_step (map_to_list (endpoints (device zha_device))) (Ok []).

(** The section stored under ["energy_scan"]. *)
Definition energy_scan_section (energy_scan : gmap Z Q) : dict :=
  dict_comp
    (λ '(channel, energy), KInt channel)
    (λ '(channel, energy), VFloat (float_div (float_mul 100 energy) 255))
    (map_to_list energy_scan).

Definition async_get_config_entry_diagnostics (hass : Hass) (config_entry : ConfigEntry)
    : value :=
  let zha_data := get_zha_data hass in
  let app := application_controller (get_zha_gateway hass) in
  let energy_scan := energy_scan app ALL_CHANNELS 4 1 in
  async_redact_data REDACTED
    (VDict (dict_of [
       (KStr "config", yaml_config zha_data);
       (KStr "config_entry", VDict (config_entry_as_dict config_entry));
       (KStr "application_state", shallow_asdict (state app));
       (KStr "energy_scan", VDict (energy_scan_section energy_scan));
       (KStr "versions",
        VDict (dict_of [
          (KStr "bellows", VStr (version "bellows"));
          (KStr "zigpy", VStr (version "zigpy"));
          (KStr "zigpy_deconz", VStr (version "zigpy-deconz"));
          (KStr "zigpy_xbee", VStr (version "zigpy-xbee"));
          (KStr "zigpy_znp", VStr (version "zigpy_znp"));
          (KStr "zigpy_zigate", VStr (version "zigpy-zigate"));
          (KStr "zhaquirks", VStr (version "zha-quirks"))
        ]))
     ]))
    KEYS_TO_REDACT.

(** The function runs on the store of dictionary objects and returns its
    outcome with the store as it leaves it: the read of
    [zha_device.zha_device_info] creates the dictionary [device_info], and
    the item assignment [device_info[CLUSTER_DETAILS] = ...] updates that
    object once its right-hand side has been computed. *)
Definition async_get_device_diagnostics (hass : Hass) (device : DeviceEntry)
    (store : objects) : result value * objects :=
  match async_get_zha_device hass (id device) with
  | Raise e => (Raise e, store)
  | Ok zha_device =>
      let '(device_info, store) := new_dict (zha_device_info zha_device) store in
      match get_endpoint_cluster_attr_data zha_device with
      | Raise e => (Raise e, store)
      | Ok cluster_details =>
          let store := set_item device_info (KStr CLUSTER_DETAILS) (VDict cluster_details) store in
          (Ok (async_redact_data REDACTED (VDict (content device_info store)) KEYS_TO_REDACT),
           store)
      end
  end.

End diagnostics.

End zha.

(** * The gateway steps and a sample installation *)

Module mysensors_steps.
Import mysensors.

(** The menu of [async_step_user] leads to one of three steps. *)
Inductive gateway_step := gw_serial | gw_tcp | gw_mqtt.

Definition step_gw_type `{Const} (s : gateway_step) : string :=
  match s with
  | gw_serial => CONF_GATEWAY_TYPE_SERIAL
  | gw_tcp => CONF_GATEWAY_TYPE_TCP
  | gw_mqtt => CONF_GATEWAY_TYPE_MQTT
  end.

Definition async_step `{Const, Helpers} (s : gateway_step) :=
  match s with
  | gw_serial => async_step_gw_serial
  | gw_tcp => async_step_gw_tcp
  | gw_mqtt => async_step_gw_mqtt
  end.

(** [s] ends in [suffix]. *)
Definition ends_in (s suffix : string) : Prop := ∃ p, s = p +:+ suffix.

(** Sample values for the imported names and helpers: every topic,
    version, address and port is accepted and the gateway answers. *)
Definition sample_const : Const := {|
  CONF_BAUD_RATE := "baud_rate";
  CONF_DEVICE := "device";
  CONF_GATEWAY_TYPE := "gateway_type";
  CONF_GATEWAY_TYPE_MQTT := "MQTT";
  CONF_GATEWAY_TYPE_SERIAL := "Serial";
  CONF_GATEWAY_TYPE_TCP := "TCP";
  CONF_PERSISTENCE_FILE := "persistence_file";
  CONF_TOPIC_IN_PREFIX := "topic_in_prefix";
  CONF_TOPIC_OUT_PREFIX := "topic_out_prefix";
  CONF_VERSION := "version";
  MQTT_COMPONENT := "mqtt";
|}.

Definition sample_helpers : Helpers := {|
  valid_subscribe_topic := Ok;
  _validate_version := λ _, ∅;
  is_socket_address := Ok;
  is_serial_port := Ok;
  _validate_persistence_file := λ _ _ errors, errors;
  _is_same_device := λ _ _ _, false;
  try_connect := λ _ _, true;
  positive_int := Ok;
  repr := λ _, "";
|}.

Definition sample_flow : Flow := {| components := {[ "mqtt" ]}; current_entries := [] |}.

(** A submission of the serial form: the fields of its schema. *)
Definition serial_input : gmap string value :=
  {[ "device" := VStr "/dev/ttyACM0"; "baud_rate" := VInt 115200; "version" := VStr "2.3" ]}.

(** A submission that also carries the two topic prefixes. *)
Definition mqtt_input : gmap string value :=
  {[ "device" := VStr "mqtt"; "version" := VStr "2.3";
     "topic_in_prefix" := VStr "mygateway-out"; "topic_out_prefix" := VStr "mygateway-in" ]}.

(** A submission to the MQTT step that leaves the device out. *)
Definition mqtt_input_no_device : gmap string value :=
  {[ "version" := VStr "2.3";
     "topic_in_prefix" := VStr "mygateway-out"; "topic_out_prefix" := VStr "mygateway-in" ]}.

(** Helpers that refuse something: the empty topic, every address but
    [127.0.0.1] and every port but [/dev/ttyACM0]. *)
Definition strict_helpers : Helpers := {|
  valid_subscribe_topic := λ v,
    if py_eqb v (VStr "") then Raise (Invalid "empty topic") else Ok v;
  _validate_version := λ _, ∅;
  is_socket_address := λ v,
    if py_eqb v (VStr "127.0.0.1") then Ok v else Raise (Invalid "not an address");
  is_serial_port := λ v,
    if py_eqb v (VStr "/dev/ttyACM0") then Ok v else Raise (Invalid "not a port");
  _validate_persistence_file := λ _ _ errors, errors;
  _is_same_device := λ _ _ _, false;
  try_connect := λ _ _, true;
  positive_int := Ok;
  repr := λ _, "";
|}.

(** A flow that already has an MQTT gateway with the topics of
    [mqtt_input]. *)
Definition busy_flow : Flow := {|
  components := {[ "mqtt" ]};
  current_entries := [ {| data := <["gateway_type" := VStr "MQTT"]> mqtt_input |} ];
|}.

(** A submission of the TCP form with an address that is none. *)
Definition tcp_input : gmap string value :=
  {[ "device" := VStr "not-an-address"; "version" := VStr "2.3" ]}.

End mysensors_steps.

(** * The actuators the XS1 platform exposes *)

Module xs1_spec.
Import xs1.

Section exposed.
Context {api actuator : Type} `{XS1Api api actuator}.

Definition exposed (st : api) (a : actuator) : Prop :=
  act_type a st = SWITCH ∨ act_type a st = DIMMER.

#[export] Instance exposed_dec st a : Decision (exposed st a).
Proof. unfold exposed. apply _. Defined.

End exposed.

End xs1_spec.

(** * Vocabulary and a sample network for the ZHA diagnostics *)

Module zha_spec.
Import zha.

Definition digit_value (c : ascii) : N :=
  let n := N_of_ascii c in
  if (48 <=? n)%N && (n <=? 57)%N then (n - 48)%N
  else if (97 <=? n)%N && (n <=? 102)%N then (n - 87)%N
  else 0%N.

(** The number a string of hexadecimal digits denotes. *)
Fixpoint hex_value (s : string) : N :=
  match s with
  | EmptyString => 0%N
  | String c s' => (digit_value c * 16 ^ N.of_nat (String.length s') + hex_value s')%N
  end.

(** [inside v w]: [w] is [v] or occurs in [v] at some depth, as an element
    of a list or as a value of a dictionary. *)
Inductive inside : value → value → Prop :=
  | inside_here v : inside v v
  | inside_list vs x w : x ∈ vs → inside x w → inside (VList vs) w
  | inside_dict kvs k x w : (k, x) ∈ kvs → inside x w → inside (VDict kvs) w.

(** A step into a value, to the value of a key of a dictionary or to the
    element at an index of a list, and the value a path of steps leads
    to. *)
Inductive step :=
  | Key (k : dkey)
  | Index (i : nat).

Fixpoint at_path (path : list step) (v : value) : option value :=
  match path, v with
  | [], _ => Some v
  | Key k :: path', VDict kvs => dict_get k kvs ≫= at_path path'
  | Index i :: path', VList vs => vs !! i ≫= at_path path'
  | _, _ => None
  end.

(** [find_attribute] knows every attribute the cluster lists as
    unsupported. *)
Definition resolves (cluster : Cluster) : Prop :=
  Forall (λ u_attr, is_Some (to_option (find_attribute cluster u_attr)))
    (unsupported_attributes cluster).

(** All clusters of the endpoint resolve their unsupported attributes. *)
Definition endpoint_resolves (endpoint : Endpoint) : Prop :=
  map_Forall (λ _ cluster, resolves cluster) (in_clusters endpoint)
  ∧ map_Forall (λ _ cluster, resolves cluster) (out_clusters endpoint).

(** The same for all endpoints of the device but endpoint 0. *)
Definition device_resolves (zha_device : ZHADevice) : Prop :=
  map_Forall (λ ep_id endpoint, ep_id ≠ 0%N → endpoint_resolves endpoint)
    (endpoints (device zha_device)).

#[export] Instance resolves_dec cluster : Decision (resolves cluster) :=
  decide (Forall _ _).

#[export] Instance endpoint_resolves_dec endpoint : Decision (endpoint_resolves endpoint) :=
  decide (_ ∧ _).

#[export] Instance device_resolves_dec zha_device : Decision (device_resolves zha_device) :=
  decide (map_Forall _ _).

Section entries.
Context `{Const}.

(** The entry of a cluster, whose attribute data are [data], in the
    dictionary of an endpoint's clusters. *)
Definition cluster_entry (cluster : Cluster) (data : dict) : value :=
  VDict (dict_update (dict_of [(KStr "endpoint_attribute", ep_attribute cluster)]) data).

(** The entry of a defined attribute in the attributes section of its
    cluster, if it gets one. *)
Definition attribute_entry (cluster : Cluster) (attr_def : ZCLAttributeDef) : option value :=
  if is_not_None (get cluster (attr_name attr_def)) then
    Some (VDict (dict_of [(KStr ATTR_ATTRIBUTE_NAME, VStr (attr_name attr_def));
                          (KStr ATTR_VALUE, get cluster (attr_name attr_def))]))
  else None.

End entries.

Definition sample_const : Const := {|
  ATTR_ATTRIBUTE_NAME := "attribute_name";
  ATTR_DEVICE_TYPE := "device_type";
  ATTR_IEEE := "ieee";
  ATTR_IN_CLUSTERS := "in_clusters";
  ATTR_OUT_CLUSTERS := "out_clusters";
  ATTR_PROFILE_ID := "profile_id";
  ATTR_VALUE := "value";
  CONF_ALARM_MASTER_CODE := "alarm_master_code";
  CONF_ID := "id";
  CONF_NAME := "name";
  CONF_NWK_EXTENDED_PAN_ID := "extended_pan_id";
  CONF_UNIQUE_ID := "unique_id";
  UNKNOWN := "unknown";
  ALL_CHANNELS := 134215680;
  REDACTED := "**REDACTED**";
|}.

(** A rounding to compute with: to the nearest multiple of 2^-44, halves
    upwards. *)
Definition to_grid (x : Q) : Q :=
  (inject_Z (Qfloor (x * inject_Z (2 ^ 44) + (1 # 2))) / inject_Z (2 ^ 44))%Q.

Program Definition grid_rounding : Binary64 := {| round := to_grid |}.
Next Obligation.
  intros x y Hxy. unfold to_grid, Qdiv. apply Qmult_le_compat_r.
  - rewrite <- Zle_Qle. apply Qfloor_resp_le.
    apply Qplus_le_compat; [|lra]. apply Qmult_le_compat_r; [done|]. done.
  - apply Qinv_le_0_compat. done.
Qed.
Next Obligation.
  intros z _. unfold to_grid. rewrite <- inject_Z_mult.
  set (n := (z * 2 ^ 44)%Z).
  assert (Qfloor (inject_Z n + (1 # 2)) = n) as ->.
  { pose proof (Qfloor_le (inject_Z n + (1 # 2))) as Hle.
    pose proof (Qlt_floor (inject_Z n + (1 # 2))) as Hlt.
    set (f := Qfloor (inject_Z n + (1 # 2))) in *.
    assert (inject_Z f < inject_Z (n + 1))%Q as H1.
    { rewrite inject_Z_plus. change (inject_Z 1) with 1%Q. lra. }
    assert (inject_Z n < inject_Z (f + 1))%Q as H2 by lra.
    rewrite <- Zlt_Qlt in H1, H2. lia. }
  subst n. rewrite inject_Z_mult. field. discriminate.
Qed.

(** An on/off cluster whose [on_off] attribute is cached and whose
    [on_time] attribute has no value and is listed as unsupported. *)
Definition sample_cluster : Cluster := {|
  ep_attribute := VStr "on_off";
  attributes := {[ 0%N := {| attr_id := 0; attr_name := "on_off" |};
                   16385%N := {| attr_id := 16385; attr_name := "on_time" |} ]};
  get := λ name, if bool_decide (name = "on_off") then VBool true else VNone;
  find_attribute := λ u_attr,
    if bool_decide (u_attr = KStr "on_time" ∨ u_attr = KInt 16385)
    then Ok {| attr_id := 16385; attr_name := "on_time" |}
    else if bool_decide (u_attr = KStr "on_off" ∨ u_attr = KInt 0)
    then Ok {| attr_id := 0; attr_name := "on_off" |}
    else Raise (KeyError "attribute");
  unsupported_attributes := [KStr "on_time"];
|}.

(** The same cluster after the device reported the attribute 0x4003,
    which the cluster does not define, as unsupported. *)
Definition stray_cluster : Cluster := {|
  ep_attribute := ep_attribute sample_cluster;
  attributes := attributes sample_cluster;
  get := get sample_cluster;
  find_attribute := find_attribute sample_cluster;
  unsupported_attributes := [KStr "on_time"; KInt 16387];
|}.

Definition sample_endpoint : Endpoint := {|
  profile_id := Some 260%N;
  device_type := Some 256%N;
  in_clusters := {[ 6%N := sample_cluster ]};
  out_clusters := ∅;
|}.

Definition stray_endpoint : Endpoint := {|
  profile_id := Some 260%N;
  device_type := Some 256%N;
  in_clusters := {[ 6%N := stray_cluster ]};
  out_clusters := ∅;
|}.

Definition zdo_endpoint : Endpoint := {|
  profile_id := None;
  device_type := None;
  in_clusters := ∅;
  out_clusters := ∅;
|}.

Definition sample_zha_device : ZHADevice := {|
  device := {| endpoints := {[ 0%N := zdo_endpoint; 1%N := sample_endpoint ]} |};
  zha_device_info := [(KStr "ieee", VStr "00:0d:6f:00:0a:90:69:e7");
                      (KStr "nwk", VInt 46462)];
|}.

Definition stray_zha_device : ZHADevice := {|
  device := {| endpoints := {[ 0%N := zdo_endpoint; 1%N := stray_endpoint ]} |};
  zha_device_info := zha_device_info sample_zha_device;
|}.

(** A host with one ZHA device, registered as ["light"], and a radio that
    measured two channels. *)
Definition sample_helpers : Helpers unit := {|
  get_zha_data := λ _, {| yaml_config := VDict [(KStr "network_key", VStr "secret")] |};
  get_zha_gateway := λ _,
    {| application_controller :=
         {| energy_scan := λ _ _ _, {[ 11%Z := 255%Q; 15%Z := 51%Q ]};
            state := Dataclass [("node_info", Dataclass [("ieee", Plain (VStr "00:11"))])] |} |};
  async_get_zha_device := λ _ device_id,
    if bool_decide (device_id = "light") then Ok sample_zha_device
    else Raise (KeyError device_id);
  version := λ _, "0.0.0";
  PROFILES := {[ 260%N := λ device_type, "DeviceType_" +:+ pretty device_type ]};
|}.

(** A config entry that has no unique id. *)
Definition sample_config_entry : ConfigEntry :=
  {| config_entry_as_dict := [(KStr "title", VStr "Zigbee"); (KStr "unique_id", VNone)] |}.

(** A store with one dictionary object in it. *)
Definition sample_store : objects := {[ 0 := [(KStr "ieee", VStr "00:11")] ]}.

(** The state of a coordinator as a dataclass with a nested dataclass, an
    object with [as_dict] and a plain value. *)
Definition sample_state : pyobj :=
  Dataclass [("node_info", Dataclass [("nwk", Plain (VInt 0)); ("ieee", Plain (VStr "00:11"))]);
             ("network_info", HasAsDict (VDict [(KStr "channel", VInt 15)]));
             ("counters", Plain VNone)].

End zha_spec.

(** * Facts about dictionaries *)

Module PyFacts.

Local Open Scope list_scope.

Section assoc.
Context {K V : Type} `{EqDecision K}.
Implicit Types (k : K) (v : V) (d items : list (K * V)).

Lemma dict_get_set_eq k v d : dict_get k (dict_set k v d) = Some v.
Proof.
  induction d as [|[k' v'] d IH]; simpl.
  - by rewrite decide_True.
  - destruct (decide (k' = k)) as [->|Hne]; simpl.
    + by rewrite decide_True.
    + by rewrite decide_False.
Qed.

Lemma dict_get_set_ne k k' v d : k ≠ k' → dict_get k' (dict_set k v d) = dict_get k' d.
Proof.
  intros Hne. induction d as [|[k0 v0] d IH]; simpl.
  - by rewrite decide_False.
  - destruct (decide (k0 = k)) as [->|Hne0]; simpl.
    + by rewrite !decide_False.
    + by rewrite IH.
Qed.

Lemma dict_get_None k d : k ∉ d.*1 → dict_get k d = None.
Proof.
  induction d as [|[k' v'] d IH]; simpl; [done|].
  intros Hk. apply not_elem_of_cons in Hk as [Hne Hk].
  rewrite decide_False by done. by apply IH.
Qed.

Lemma dict_get_Some k v d : dict_get k d = Some v → (k, v) ∈ d.
Proof.
  induction d as [|[k' v'] d IH]; simpl; [done|].
  destruct (decide (k' = k)) as [->|Hne].
  - intros [= ->]. left.
  - intros Hd. right. by apply IH.
Qed.

Lemma dict_get_elem_of k v d : NoDup d.*1 → (k, v) ∈ d → dict_get k d = Some v.
Proof.
  induction d as [|[k' v'] d IH]; simpl.
  - intros _ Hin. by apply elem_of_nil in Hin.
  - intros Hnd Hin. apply NoDup_cons in Hnd as [Hk' Hnd].
    apply elem_of_cons in Hin as [[= -> ->]|Hin].
    + by rewrite decide_True.
    + rewrite decide_False; [by apply IH|].
      intros ->. apply Hk'. apply list_elem_of_fmap. by exists (k, v).
Qed.

(** Storing a key that is not there yet appends it. *)
Lemma dict_set_new k v d : k ∉ d.*1 → dict_set k v d = d ++ [(k, v)].
Proof.
  induction d as [|[k' v'] d IH]; simpl; [done|].
  intros Hk. apply not_elem_of_cons in Hk as [Hne Hk].
  rewrite decide_False by done. by rewrite IH.
Qed.

(** With pairwise different keys, a display is the list of its items. *)
Lemma dict_update_NoDup d items : NoDup (d ++ items).*1 → dict_update d items = d ++ items.
Proof.
  unfold dict_update. revert d.
  induction items as [|[k v] items IH]; intros d Hnd; simpl.
  - by rewrite app_nil_r.
  - assert (k ∉ d.*1) as Hk.
    { rewrite fmap_app in Hnd. apply NoDup_app in Hnd as (_ & Hd & _).
      intros Hk. apply (Hd k Hk). simpl. left. }
    rewrite dict_set_new by done. rewrite IH.
    + by rewrite <- app_assoc.
    + by rewrite <- app_assoc.
Qed.

Lemma dict_of_NoDup items : NoDup items.*1 → dict_of items = items.
Proof. intros Hnd. by apply (dict_update_NoDup []). Qed.

End assoc.

(** ** Comprehensions over the items of a map *)

Section comprehension.
Context {I A K V : Type} `{Countable I} `{EqDecision K}.
Context (kf : I → K) `{!Inj (=) (=) kf}.
Context (g : I → A → option V).

Lemma NoDup_fst_functional (l : list (I * A)) i a b :
  NoDup l.*1 → (i, a) ∈ l → (i, b) ∈ l → a = b.
Proof.
  induction l as [|[j c] l IH]; simpl; intros Hnd Ha Hb.
  - by apply elem_of_nil in Ha.
  - apply NoDup_cons in Hnd as [Hj Hnd].
    apply elem_of_cons in Ha as [Ha|Ha]; apply elem_of_cons in Hb as [Hb|Hb].
    + congruence.
    + exfalso. apply Hj. apply list_elem_of_fmap. exists (i, b). split; [|done].
      simpl. congruence.
    + exfalso. apply Hj. apply list_elem_of_fmap. exists (i, a). split; [|done].
      simpl. congruence.
    + by apply IH.
Qed.

Local Abbreviation item := (Py.item kf g).

Lemma omap_item_keys (l : list (I * A)) k :
  k ∈ (omap item l).*1 → ∃ i a v, k = kf i ∧ (i, a) ∈ l ∧ g i a = Some v.
Proof.
  intros Hk. apply list_elem_of_fmap in Hk as ([k' v] & -> & Hin).
  apply list_elem_of_omap in Hin as ([i a] & Hia & Hitem).
  unfold item in Hitem. simpl in Hitem.
  destruct (g i a) as [v'|] eqn:Hg; simplify_eq/=. eauto 10.
Qed.

Lemma omap_item_NoDup (l : list (I * A)) : NoDup l.*1 → NoDup (omap item l).*1.
Proof.
  induction l as [|[i a] l IH]; simpl; [constructor|].
  intros Hnd. apply NoDup_cons in Hnd as [Hi Hnd].
  unfold item at 1. simpl. destruct (g i a) as [v|]; simpl; [|by apply IH].
  apply NoDup_cons. split; [|by apply IH].
  intros Hk. apply omap_item_keys in Hk as (j & b & w & Hkf & Hin & _).
  apply (inj kf) in Hkf as ->. apply Hi. apply list_elem_of_fmap. by exists (j, b).
Qed.

Lemma dict_get_omap_item (l : list (I * A)) i a :
  NoDup l.*1 → (i, a) ∈ l → dict_get (kf i) (omap item l) = g i a.
Proof.
  intros Hnd Hin. destruct (g i a) as [v|] eqn:Hg.
  - apply dict_get_elem_of; [by apply omap_item_NoDup|].
    apply list_elem_of_omap. exists (i, a). split; [done|].
    unfold item. simpl. by rewrite Hg.
  - apply dict_get_None. intros Hk.
    apply omap_item_keys in Hk as (j & b & w & Hkf & Hjb & Hgj).
    apply (inj kf) in Hkf as <-.
    assert (a = b) as <-; [|congruence].
    by apply (NoDup_fst_functional l i).
Qed.

Lemma dict_get_omap_item_None (l : list (I * A)) i :
  i ∉ l.*1 → dict_get (kf i) (omap item l) = None.
Proof.
  intros Hi. apply dict_get_None. intros Hk.
  apply omap_item_keys in Hk as (j & b & w & Hkf & Hjb & _).
  apply (inj kf) in Hkf as <-. apply Hi. apply list_elem_of_fmap. by exists (i, b).
Qed.

(** The dictionary [{kf(i): v for i, a in m.items() if g(i, a) gives v}]. *)
Lemma dict_of_map_items (m : gmap I A) :
  dict_of (omap item (map_to_list m)) = omap item (map_to_list m).
Proof. apply dict_of_NoDup, omap_item_NoDup, NoDup_fst_map_to_list. Qed.

Lemma dict_get_map_items (m : gmap I A) i :
  dict_get (kf i) (omap item (map_to_list m)) = m !! i ≫= g i.
Proof.
  destruct (m !! i) as [a|] eqn:Hm; simpl.
  - apply dict_get_omap_item; [apply NoDup_fst_map_to_list|].
    by apply elem_of_map_to_list.
  - apply dict_get_omap_item_None. intros Hi.
    apply list_elem_of_fmap in Hi as ([j a] & -> & Hin).
    apply elem_of_map_to_list in Hin. simpl in Hm. congruence.
Qed.

Lemma dict_keys_map_items (m : gmap I A) k :
  k ∈ dict_keys (omap item (map_to_list m)) ↔ ∃ i a v, k = kf i ∧ m !! i = Some a ∧ g i a = Some v.
Proof.
  unfold dict_keys. split.
  - intros Hk. apply omap_item_keys in Hk as (i & a & v & -> & Hin & Hg).
    apply elem_of_map_to_list in Hin. eauto 10.
  - intros (i & a & v & -> & Hm & Hg).
    apply list_elem_of_fmap. exists (kf i, v). split; [done|].
    apply list_elem_of_omap. exists (i, a). split; [by apply elem_of_map_to_list|].
    unfold item. simpl. by rewrite Hg.
Qed.

End comprehension.

End PyFacts.

(** * Properties of the MySensors config flow *)

Module mysensors_props.
Import mysensors mysensors_steps.

Ltac run_result := unfold mbind, mret, fmap, result_bind, result_ret, result_fmap; simpl.

Lemma endswith_sound s suffix : endswith s suffix = true → ends_in s suffix.
Proof.
  induction s as [|c s IH]; simpl; intros Hs.
  - rewrite orb_false_r in Hs. apply bool_decide_eq_true in Hs. by exists "".
  - apply orb_true_iff in Hs as [Hs|Hs].
    + apply bool_decide_eq_true in Hs. by exists "".
    + destruct (IH Hs) as [p ->]. by exists (String c p).
Qed.

Lemma endswith_complete p suffix : endswith (p +:+ suffix) suffix = true.
Proof.
  induction p as [|c p IH]; simpl.
  - destruct suffix; apply orb_true_iff; left; by apply bool_decide_eq_true.
  - rewrite IH. apply orb_true_r.
Qed.

Lemma endswith_spec s suffix : endswith s suffix = true ↔ ends_in s suffix.
Proof.
  split; [apply endswith_sound|]. intros [p ->]. apply endswith_complete.
Qed.

Lemma persistence_suffix_spec value :
  endswith_any value [".json"; ".pickle"] = true
  ↔ ends_in value ".json" ∨ ends_in value ".pickle".
Proof.
  unfold endswith_any; simpl. rewrite orb_false_r, orb_true_iff.
  by rewrite !endswith_spec.
Qed.

Section props.
Context `{Const, Helpers}.

Lemma schema_get_set_eq m v d :
  ∃ m', schema_get (m_schema m) (schema_set m v d) = Some (m', v) ∧ m_schema m' = m_schema m.
Proof.
  induction d as [|[m0 v0] d IH]; simpl.
  - rewrite decide_True by done. eauto.
  - destruct (decide (m_schema m0 = m_schema m)) as [Heq|Hne]; simpl.
    + rewrite decide_True by done. eauto.
    + rewrite decide_False by done. apply IH.
Qed.

Lemma schema_get_set_new m v d :
  schema_get (m_schema m) d = None → schema_get (m_schema m) (schema_set m v d) = Some (m, v).
Proof.
  induction d as [|[m0 v0] d IH]; simpl.
  - by rewrite decide_True.
  - destruct (decide (m_schema m0 = m_schema m)) as [Heq|Hne]; [done|].
    simpl. rewrite decide_False by done. apply IH.
Qed.

Lemma schema_get_set_ne key m v d :
  m_schema m ≠ key → schema_get key (schema_set m v d) = schema_get key d.
Proof.
  intros Hne. induction d as [|[m0 v0] d IH]; simpl.
  - by rewrite decide_False.
  - destruct (decide (m_schema m0 = m_schema m)) as [Heq|Hne']; simpl.
    + rewrite !decide_False by congruence. done.
    + destruct (decide (m_schema m0 = key)); [done|apply IH].
Qed.

(** The gateway schema is never built: the common schema is unpacked into
    keyword arguments, and its keys are marker objects. *)
Lemma _get_gateway_schema_raises user_input gw_type :
  _get_gateway_schema user_input gw_type = Raise (TypeError "keywords must be strings").
Proof.
  unfold _get_gateway_schema, _get_common_schema, schema_of. simpl.
  by destruct (decide _).
Qed.

Lemma step_unfold (self : Flow) (s : gateway_step) user_input :
  (s = gw_mqtt → MQTT_COMPONENT ∈ components self) →
  async_step s self user_input
  = _async_create_gateway_entry self user_input (step_gw_type s)
      (match s with gw_serial => "gw_serial" | gw_tcp => "gw_tcp" | gw_mqtt => "gw_mqtt" end).
Proof.
  intros Hmqtt. destruct s; try reflexivity.
  simpl. unfold async_step_gw_mqtt. rewrite decide_False; [done|].
  intros Hn. by apply Hn, Hmqtt.
Qed.


(** C3 (the behaviour of the code). A submission without the incoming
    topic prefix makes every gateway step raise [KeyError]: the subscript
    in [_validate_topic] is evaluated for all gateway types, and only
    [vol.Invalid] is caught. *)
Theorem missing_topic_prefix_raises (self : Flow) (s : gateway_step)
    (user_input : gmap string value) :
  (s = gw_mqtt → MQTT_COMPONENT ∈ components self) →
  user_input !! CONF_TOPIC_IN_PREFIX = None →
  async_step s self (Some user_input) = Raise (KeyError CONF_TOPIC_IN_PREFIX).
Proof.
  intros Hmqtt Hnone. rewrite (step_unfold _ _ _ Hmqtt).
  unfold _async_create_gateway_entry, validation, _validate_topic, subscript.
  rewrite Hnone. reflexivity.
Qed.

(** C7. On a string, [validate_persistence_file] returns the string itself
    exactly when it ends in [.json] or [.pickle], and raises [vol.Invalid]
    otherwise. The common schema maps the persistence-file key to
    [vol.All(str, validate_persistence_file)], which on a string does what
    [validate_persistence_file] does and rejects anything else. *)
Theorem validate_persistence_file_spec :
  (∀ value : string,
     validate_persistence_file value = Ok value
     ↔ ends_in value ".json" ∨ ends_in value ".pickle")
  ∧ (∀ value : string,
       ¬ (ends_in value ".json" ∨ ends_in value ".pickle") →
       ∃ msg, validate_persistence_file value = Raise (Invalid msg))
  ∧ (∀ user_input, ∃ marker,
       schema_get CONF_PERSISTENCE_FILE (_get_common_schema user_input)
       = Some (marker, vol_All [vol_str; on_str validate_persistence_file]))
  ∧ (∀ value : string,
       vol_All [vol_str; on_str validate_persistence_file] (VStr value)
       = VStr <$> validate_persistence_file value)
  ∧ (∀ v, (∀ s, v ≠ VStr s) →
       ∃ msg, vol_All [vol_str; on_str validate_persistence_file] v = Raise (Invalid msg)).
Proof.
  split; [|split; [|split; [|split]]].
  - intros value. rewrite <- persistence_suffix_spec. unfold validate_persistence_file.
    destruct (endswith_any value _); split; done.
  - intros value Hno. rewrite <- persistence_suffix_spec in Hno.
    unfold validate_persistence_file.
    destruct (endswith_any value _); [done|]. eauto.
  - intros user_input. unfold _get_common_schema, schema_of. simpl.
    destruct (decide (CONF_VERSION = CONF_PERSISTENCE_FILE)) as [Heq|Hne]; simpl.
    + rewrite decide_True by done. eauto.
    + rewrite decide_False by done. rewrite decide_True by done. eauto.
  - intros value. reflexivity.
  - intros v Hv. destruct v; simpl; eauto. by destruct (Hv s).
Qed.

(** C10. The default device is [/dev/ttyACM0] and the default of the
    baud-rate field is 115200 for the serial gateway type; for every other
    gateway type they are [127.0.0.1] and 5003, which is
    [DEFAULT_TCP_PORT]. These are the defaults of the two fields of the
    form's base schema when no device has been submitted yet. *)
Theorem gateway_form_defaults (gw_type : string) :
  (gw_type = CONF_GATEWAY_TYPE_SERIAL →
     _default_device gw_type = "/dev/ttyACM0" ∧ _default_baud_rate gw_type = 115200%Z)
  ∧ (gw_type ≠ CONF_GATEWAY_TYPE_SERIAL →
       _default_device gw_type = "127.0.0.1"
       ∧ _default_baud_rate gw_type = 5003%Z
       ∧ _default_baud_rate gw_type = DEFAULT_TCP_PORT)
  ∧ (∀ user_input,
       user_input !! CONF_DEVICE = None →
       CONF_DEVICE ≠ CONF_BAUD_RATE →
       schema_get CONF_DEVICE (base_schema user_input gw_type)
       = Some (vol_Required CONF_DEVICE (Some (VStr (_default_device gw_type))) None, vol_str)
       ∧ schema_get CONF_BAUD_RATE (base_schema user_input gw_type)
         = Some (vol_Optional CONF_BAUD_RATE (Some (VInt (_default_baud_rate gw_type))) None,
                 positive_int)).
Proof.
  split; [|split].
  - intros ->. unfold _default_device, _default_baud_rate. by rewrite !decide_True.
  - intros Hne. unfold _default_device, _default_baud_rate. by rewrite !decide_False.
  - intros user_input Hnone Hne. unfold base_schema, schema_of. simpl.
    rewrite Hnone. simpl. rewrite decide_False by done. simpl.
    rewrite !decide_True by done. rewrite decide_False by done.
    rewrite decide_True by done. done.
Qed.

End props.

(** ** The properties at the sample installation *)

Lemma mqtt_input_validates :
  @validation sample_const sample_helpers sample_flow "MQTT" mqtt_input = Ok ∅.
Proof. vm_compute. reflexivity. Qed.


Lemma gateway_form_defaults_witness :
  (@_default_device sample_const "Serial" = "/dev/ttyACM0"
   ∧ @_default_baud_rate sample_const "Serial" = 115200%Z)
  ∧ (@_default_device sample_const "TCP" = "127.0.0.1"
     ∧ @_default_baud_rate sample_const "TCP" = 5003%Z)
  ∧ (@_default_device sample_const "MQTT" = "127.0.0.1"
     ∧ @_default_baud_rate sample_const "MQTT" = 5003%Z).
Proof.
  split; [|split].
  - exact (proj1 (@gateway_form_defaults sample_const sample_helpers "Serial") eq_refl).
  - destruct (proj1 (proj2 (@gateway_form_defaults sample_const sample_helpers "TCP")))
      as (Hdevice & Hbaud & _); [discriminate|]. exact (conj Hdevice Hbaud).
  - destruct (proj1 (proj2 (@gateway_form_defaults sample_const sample_helpers "MQTT")))
      as (Hdevice & Hbaud & _); [discriminate|]. exact (conj Hdevice Hbaud).
Defined.

Lemma missing_topic_prefix_raises_witness :
  @async_step sample_const sample_helpers gw_serial sample_flow (Some serial_input)
  = Raise (KeyError "topic_in_prefix").
Proof.
  refine (@missing_topic_prefix_raises sample_const sample_helpers sample_flow gw_serial
            serial_input _ _).
  - discriminate.
  - vm_compute. reflexivity.
Defined.

End mysensors_props.

(** * Properties of the XS1 switch platform *)

Module xs1_props.
Import xs1 xs1_spec.

Local Open Scope list_scope.

Section props.
Context {api actuator : Type} `{XS1Api api actuator}.

Lemma collect_entities (st : api) (actuators : list actuator) (acc : list (XS1SwitchEntity actuator)) :
  fold_left
    (λ switch_entities a,
       if bool_decide (act_type a st = SWITCH) || bool_decide (act_type a st = DIMMER)
       then switch_entities ++ [{| device := a |}]
       else switch_entities)
    actuators acc
  = acc ++ (@Build_XS1SwitchEntity actuator <$> filter (exposed st) actuators).
Proof.
  revert acc. induction actuators as [|a actuators IH]; intros acc; simpl.
  - by rewrite app_nil_r.
  - rewrite IH. rewrite filter_cons. unfold exposed at 2.
    destruct (decide (act_type a st = SWITCH ∨ act_type a st = DIMMER)) as [Hyes|Hno].
    + replace (bool_decide (act_type a st = SWITCH) || bool_decide (act_type a st = DIMMER))
        with true.
      * by rewrite <- app_assoc.
      * symmetry. apply orb_true_iff.
        destruct Hyes; [left|right]; by apply bool_decide_eq_true.
    + replace (bool_decide (act_type a st = SWITCH) || bool_decide (act_type a st = DIMMER))
        with false; [done|].
      symmetry. apply orb_false_iff.
      split; apply bool_decide_eq_false; tauto.
Qed.

(** C4. [setup_platform] calls [add_entities] once, with one entity for
    each actuator of the list whose type is SWITCH or DIMMER, in the order
    of the list; an actuator of another type gets no entity. *)
Theorem setup_platform_entities {P : Type} (actuators : list actuator) (st : api)
    (add_entities : list (XS1SwitchEntity actuator) → P → P) :
  ∃ switch_entities,
    setup_platform actuators st add_entities = add_entities switch_entities
    ∧ switch_entities = @Build_XS1SwitchEntity actuator <$> filter (exposed st) actuators
    ∧ device <$> switch_entities = filter (exposed st) actuators
    ∧ device <$> switch_entities `sublist_of` actuators
    ∧ (∀ a, a ∈ device <$> switch_entities ↔ a ∈ actuators ∧ exposed st a)
    ∧ (∀ a, a ∈ actuators → act_type a st ≠ SWITCH → act_type a st ≠ DIMMER →
         a ∉ device <$> switch_entities).
Proof.
  exists (@Build_XS1SwitchEntity actuator <$> filter (exposed st) actuators).
  assert (device <$> (@Build_XS1SwitchEntity actuator <$> filter (exposed st) actuators)
          = filter (exposed st) actuators) as Hdev.
  { rewrite <- list_fmap_compose. apply list_fmap_id. }
  rewrite Hdev. split; [|split; [|split; [|split; [|split]]]]; try done.
  - unfold setup_platform. by rewrite collect_entities.
  - apply sublist_filter.
  - intros a. by rewrite list_elem_of_filter, (comm and).
  - intros a _ Hs Hd Hin. apply list_elem_of_filter in Hin as [[?|?] _]; done.
Qed.

(** C5. An entity is a view of its actuator: [turn_on] and [turn_off] are
    the actuator's, the name is the actuator's name, and [is_on] holds
    exactly when the actuator's value is a number equal to 100. *)
Theorem entity_follows_actuator (self : XS1SwitchEntity actuator) (st : api) :
  turn_on self st = act_turn_on (device self) st
  ∧ turn_off self st = act_turn_off (device self) st
  ∧ name self st = act_name (device self) st
  ∧ (is_on self st = true
     ↔ ∃ q, py_num (act_value (device self) st) = Some q ∧ (q == 100)%Q).
Proof.
  split; [done|split; [done|split; [done|]]].
  unfold is_on. destruct (act_value (device self) st) as [|b|n|q|s|vs|kvs]; simpl.
  - split; [done|]. by intros (q & ? & _).
  - rewrite Qeq_bool_iff. split; [eauto|]. by intros (q & [= <-] & Hq).
  - rewrite Qeq_bool_iff. split; [eauto|]. by intros (q & [= <-] & Hq).
  - rewrite Qeq_bool_iff. split; [eauto|]. by intros (q' & [= <-] & Hq).
  - split; [done|]. by intros (q & ? & _).
  - split; [done|]. by intros (q & ? & _).
  - split; [done|]. by intros (q & ? & _).
Qed.

End props.

End xs1_props.

(** * Properties of the ZHA diagnostics *)

Module zha_props.
Import zha zha_spec PyFacts.

Local Open Scope list_scope.

(** ** Hexadecimal keys *)

Lemma hex_digit_value d : (d < 16)%N → digit_value (hex_digit d) = d.
Proof.
  intros Hd.
  assert (d ∈ [0; 1; 2; 3; 4; 5; 6; 7; 8; 9; 10; 11; 12; 13; 14; 15]%N) as Hin.
  { rewrite !elem_of_cons. lia. }
  rewrite !elem_of_cons in Hin.
  repeat (destruct Hin as [->|Hin]; [reflexivity|]).
  by apply elem_of_nil in Hin.
Qed.

Lemma hex_value_digits fuel n acc :
  (n < 2 ^ N.of_nat fuel)%N →
  hex_value (hex_digits fuel n acc)
  = (n * 16 ^ N.of_nat (String.length acc) + hex_value acc)%N.
Proof.
  revert n acc. induction fuel as [|fuel IH]; intros n acc Hn.
  - simpl in *. assert (n = 0%N) as -> by lia. simpl. lia.
  - assert (n mod 16 < 16)%N as Hmod by (apply N.mod_lt; lia).
    assert (n = 16 * (n / 16) + n mod 16)%N as Hdiv by (apply N.div_mod; lia).
    assert (hex_value (String (hex_digit (n mod 16)) acc)
            = (n mod 16 * 16 ^ N.of_nat (String.length acc) + hex_value acc)%N) as Hacc.
    { simpl. by rewrite hex_digit_value. }
    cbn [hex_digits]. destruct (n / 16 =? 0)%N eqn:Hq.
    + apply N.eqb_eq in Hq. rewrite Hacc. f_equal. f_equal. lia.
    + rewrite IH.
      * rewrite Hacc. cbn [String.length]. rewrite Nat2N.inj_succ, N.pow_succ_r'. lia.
      * rewrite Nat2N.inj_succ, N.pow_succ_r' in Hn.
        apply N.Div0.div_lt_upper_bound. lia.
Qed.

Lemma hex_value_format_x n : hex_value (format_x n) = n.
Proof.
  unfold format_x. rewrite hex_value_digits; [simpl; lia|].
  rewrite Nat2N.inj_succ, N2Nat.id.
  destruct (decide (n = 0%N)) as [->|Hn]; [done|].
  apply N.log2_spec. lia.
Qed.

Lemma hex_value_zeros k s : hex_value (zeros k +:+ s) = hex_value s.
Proof. induction k as [|k IH]; simpl; [done|]. by rewrite IH. Qed.

Lemma hex_value_format_0x04x n :
  ∃ s, format_0x04x n = String "0" (String "x" s) ∧ hex_value s = n.
Proof.
  exists (zero_pad 4 (format_x n)). split; [done|].
  unfold zero_pad. by rewrite hex_value_zeros, hex_value_format_x.
Qed.

#[export] Instance format_0x04x_inj : Inj (=) (=) format_0x04x.
Proof.
  intros a b Hab.
  destruct (hex_value_format_0x04x a) as (sa & Ha & <-).
  destruct (hex_value_format_0x04x b) as (sb & Hb & <-).
  rewrite Ha, Hb in Hab. by simplify_eq.
Qed.

#[export] Instance hex_key_inj : Inj (=) (=) (λ n, KStr (format_0x04x n)).
Proof.
  intros a b Hab. apply (inj format_0x04x).
  exact (f_equal (λ k, match k with KStr s => s | KInt _ => "" end) Hab).
Qed.

#[export] Instance endpoint_key_inj : Inj (=) (=) (λ n, KInt (Z.of_N n)).
Proof. intros a b [= Hab]. lia. Qed.

#[export] Instance channel_key_inj : Inj (=) (=) KInt.
Proof. by intros a b [= Hab]. Qed.

Lemma hex_digits_last fuel n acc :
  (n < 16)%N → hex_digits (S fuel) n acc = String (hex_digit n) acc.
Proof.
  intros Hn. cbn [hex_digits]. rewrite N.div_small, N.mod_small by done. done.
Qed.

Lemma hex_digits_more fuel n acc :
  (16 ≤ n)%N →
  hex_digits (S fuel) n acc = hex_digits fuel (n / 16) (String (hex_digit (n mod 16)) acc).
Proof.
  intros Hn. cbn [hex_digits].
  destruct (n / 16 =? 0)%N eqn:Hq; [|done].
  apply N.eqb_eq, N.div_small_iff in Hq; lia.
Qed.

(** An id below 65536 is rendered with exactly four digits. *)
Lemma format_0x04x_uint16 n :
  (n < 65536)%N →
  format_0x04x n
  = String "0" (String "x"
      (String (hex_digit (n / 4096))
        (String (hex_digit (n / 256 mod 16))
          (String (hex_digit (n / 16 mod 16))
            (String (hex_digit (n mod 16)) ""))))).
Proof.
  intros Hn. unfold format_0x04x, format_x. do 2 f_equal.
  assert (n / 16 / 16 = n / 256)%N as H256 by (rewrite N.Div0.div_div; done).
  assert (n / 256 / 16 = n / 4096)%N as H4096 by (rewrite !N.Div0.div_div; done).
  destruct (decide (n < 16)%N) as [L1|L1].
  { rewrite hex_digits_last by done.
    rewrite (N.div_small n 4096), (N.div_small n 256), (N.div_small n 16) by lia.
    by rewrite (N.mod_small n 16) by lia. }
  assert (4 ≤ N.log2 n)%N as Hlog.
  { change 4%N with (N.log2 16). apply N.log2_le_mono. lia. }
  destruct (N.to_nat (N.log2 n)) as [|[|[|[|fuel]]]] eqn:Hfuel; try lia.
  rewrite hex_digits_more by lia.
  assert (n / 16 < 4096)%N by (apply N.Div0.div_lt_upper_bound; lia).
  assert (n / 256 < 256)%N by (apply N.Div0.div_lt_upper_bound; lia).
  assert (n / 4096 < 16)%N by (apply N.Div0.div_lt_upper_bound; lia).
  destruct (decide (n < 256)%N) as [L2|L2].
  { rewrite hex_digits_last by (apply N.Div0.div_lt_upper_bound; lia).
    rewrite (N.div_small n 4096), (N.div_small n 256) by lia.
    rewrite (N.mod_small (n / 16)) by (apply N.Div0.div_lt_upper_bound; lia). done. }
  assert (16 ≤ n / 16)%N by (apply N.div_le_lower_bound; lia).
  rewrite hex_digits_more by done. rewrite H256.
  destruct (decide (n < 4096)%N) as [L3|L3].
  { rewrite hex_digits_last by (apply N.Div0.div_lt_upper_bound; lia).
    rewrite (N.div_small n 4096) by lia.
    rewrite (N.mod_small (n / 256)) by (apply N.Div0.div_lt_upper_bound; lia). done. }
  assert (16 ≤ n / 256)%N by (apply N.div_le_lower_bound; lia).
  rewrite hex_digits_more by done. rewrite H4096.
  rewrite hex_digits_last by done. done.
Qed.

(** ** Redaction *)

Lemma redact_dict placeholder kvs to_redact :
  async_redact_data placeholder (VDict kvs) to_redact
  = VDict (map (λ kv,
             (kv.1,
              if is_blank kv.2 then kv.2
              else if listed kv.1 to_redact then VStr placeholder
              else async_redact_data placeholder kv.2 to_redact)) kvs).
Proof. reflexivity. Qed.

Lemma is_blank_spec v : is_blank v = true ↔ v = VNone ∨ v = VStr "".
Proof.
  destruct v as [| | | |[|c s]| |]; simpl; split;
    try discriminate; try tauto; intros [?|?]; discriminate.
Qed.

Lemma inside_atom v w :
  (∀ vs, v ≠ VList vs) → (∀ kvs, v ≠ VDict kvs) → inside v w → w = v.
Proof. intros Hl Hd Hin. inversion Hin; subst; [done|by destruct (Hl vs)|by destruct (Hd kvs)]. Qed.

Lemma inside_blank v w : is_blank v = true → inside v w → w = v.
Proof.
  intros Hv. apply is_blank_spec in Hv.
  apply inside_atom; intros ? ->; destruct Hv; discriminate.
Qed.

(** In what [async_redact_data] returns, a listed key holds the
    placeholder, [None] or the empty string, at every depth. *)
Lemma redacted_everywhere placeholder to_redact data kvs k v :
  inside (async_redact_data placeholder data to_redact) (VDict kvs) →
  (KStr k, v) ∈ kvs → k ∈ to_redact →
  v = VStr placeholder ∨ v = VNone ∨ v = VStr "".
Proof.
  revert kvs k v. induction data as [| | | | |vs IH|kvs0 IH] using value_ind';
    intros kvs k v Hin Hkv Hk; try (by apply inside_atom in Hin).
  - simpl in Hin. inversion Hin as [|vs' x w Hx Hxw|]; subst.
    apply list_elem_of_fmap in Hx as (y & -> & Hy).
    rewrite Forall_forall in IH. by apply (IH y Hy kvs k v).
  - rewrite redact_dict in Hin. rewrite Forall_forall in IH.
    inversion Hin as [|?|kvs' k' x w Hx Hxw]; subst.
    + apply list_elem_of_fmap in Hkv as ([k0 v0] & [= <- ->] & Hin0). simpl.
      destruct (is_blank v0) eqn:Hblank.
      * apply is_blank_spec in Hblank. tauto.
      * rewrite bool_decide_eq_true_2 by done. tauto.
    + apply list_elem_of_fmap in Hx as ([k0 v0] & [= -> ->] & Hin0). simpl in Hxw.
      destruct (is_blank v0) eqn:Hblank.
      * apply inside_blank in Hxw; [|done]. subst. discriminate.
      * destruct (listed k0 to_redact).
        -- by apply inside_atom in Hxw.
        -- by apply (IH _ Hin0 kvs k v).
Qed.

(** What [async_redact_data] stores under a key of a dictionary. *)
Lemma dict_get_redact placeholder to_redact (d : dict) k :
  dict_get k
    (map (λ kv : dkey * value,
            (kv.1,
             if is_blank kv.2 then kv.2
             else if listed kv.1 to_redact then VStr placeholder
             else async_redact_data placeholder kv.2 to_redact)) d)
  = (λ v, if is_blank v then v
          else if listed k to_redact then VStr placeholder
          else async_redact_data placeholder v to_redact) <$> dict_get k d.
Proof.
  induction d as [|[k' v'] d IH]; simpl; [done|].
  destruct (decide (k' = k)) as [->|Hne]; [done|]. apply IH.
Qed.

(** Redaction leaves a dictionary from channels to numbers as it is. *)
Lemma redact_numbers placeholder to_redact (d : dict) :
  Forall (λ kv, ∃ c q, kv = (KInt c, VFloat q)) d →
  async_redact_data placeholder (VDict d) to_redact = VDict d.
Proof.
  intros Hd. rewrite redact_dict. f_equal.
  induction Hd as [|kv d (c & q & ->) Hd IH]; simpl; [done|]. by rewrite IH.
Qed.

(** ** Numbers *)

Section floats.
Context `{Binary64}.

Lemma round_proper (x y : Q) : (x == y)%Q → (round x == round y)%Q.
Proof.
  intros Hxy. apply Qle_antisym; apply round_le; rewrite Hxy; apply Qle_refl.
Qed.

Lemma round_small_int (z : Z) (x : Q) :
  (Z.abs z <= 2 ^ 53)%Z → (x == inject_Z z)%Q → (round x == inject_Z z)%Q.
Proof. intros Hz Hx. rewrite (round_proper _ _ Hx). by apply round_int. Qed.

Lemma percent_bounds (e : Q) :
  (0 <= e)%Q → (e <= 255)%Q →
  (0 <= float_div (float_mul 100 e) 255)%Q ∧ (float_div (float_mul 100 e) 255 <= 100)%Q.
Proof.
  intros H0 H255. unfold float_div, float_mul.
  assert (round 0 == 0)%Q as R0 by (by apply (round_small_int 0)).
  assert (round 25500 == 25500)%Q as R25500 by (by apply (round_small_int 25500)).
  assert (round 100 == 100)%Q as R100 by (by apply (round_small_int 100)).
  assert (0 <= round (100 * e))%Q as Ha0.
  { apply Qle_trans with (round 0); [apply Qle_lteq; right; by symmetry|].
    apply round_le. lra. }
  assert (round (100 * e) <= 25500)%Q as Ha1.
  { apply Qle_trans with (round 25500); [|apply Qle_lteq; by right].
    apply round_le. lra. }
  split.
  - apply Qle_trans with (round 0); [apply Qle_lteq; right; by symmetry|].
    apply round_le. apply Qle_shift_div_l; lra.
  - apply Qle_trans with (round 100); [|apply Qle_lteq; by right].
    apply round_le. apply Qle_shift_div_r; lra.
Qed.

Lemma percent_monotone (e1 e2 : Q) :
  (e1 <= e2)%Q →
  (float_div (float_mul 100 e1) 255 <= float_div (float_mul 100 e2) 255)%Q.
Proof.
  intros Hle. unfold float_div, float_mul. apply round_le.
  unfold Qdiv. apply Qmult_le_compat_r; [|done]. apply round_le. lra.
Qed.

End floats.

(** ** Comprehensions as lists of items *)

Section each.
Context {A B : Type} (f : A → result B).

Lemma for_each_Forall2 (l : list A) (bs : list B) :
  for_each f l = Ok bs ↔ Forall2 (λ a b, f a = Ok b) l bs.
Proof.
  revert bs. induction l as [|a l IH]; intros bs; simpl.
  - split.
    + intros [= <-]. constructor.
    + intros Hnil. by inversion Hnil.
  - destruct (f a) as [b|e] eqn:Hfa; simpl.
    + destruct (for_each f l) as [bs'|e] eqn:Hrest; simpl.
      * split.
        -- intros [= <-]. constructor; [done|]. by apply IH.
        -- intros Hall. inversion Hall as [|? b' ? bs'' Hb Hbs]; subst.
           apply IH in Hbs. congruence.
      * split; [discriminate|]. intros Hall.
        inversion Hall as [|? b' ? bs'' Hb Hbs]; subst.
        apply IH in Hbs. discriminate.
    + split; [discriminate|]. intros Hall.
      inversion Hall as [|? b' ? bs'' Hb Hbs]; subst. congruence.
Qed.

Lemma for_each_succeeds (l : list A) :
  (∀ a, a ∈ l → ∃ b, f a = Ok b) ↔ ∃ bs, for_each f l = Ok bs.
Proof.
  induction l as [|a l IH]; simpl.
  - split; [eauto|]. intros _ a Ha. by apply elem_of_nil in Ha.
  - split.
    + intros Hall. destruct (Hall a) as [b ->]; [left|]. simpl.
      destruct (proj1 IH) as [bs ->]; [|simpl; eauto].
      intros a' Ha'. apply Hall. by right.
    + intros [bs Hbs] a' Ha'.
      destruct (f a) as [b|e] eqn:Hfa; [|discriminate]. simpl in Hbs.
      destruct (for_each f l) as [bs'|e] eqn:Hrest; [|discriminate].
      apply elem_of_cons in Ha' as [->|Ha']; [eauto|].
      apply (proj2 IH); eauto.
Qed.

End each.

Section items.
Context {I A K V : Type} `{Countable I} `{EqDecision K}.
Context (kf : I → K) (g : I → A → option V).

Lemma omap_item_ext (f : I * A → option (K * V)) (l : list (I * A)) :
  (∀ i a, f (i, a) = (kf i,.) <$> g i a) → omap f l = omap (item kf g) l.
Proof.
  intros Hf. induction l as [|[i a] l IH]; csimpl; [done|].
  rewrite Hf, IH. done.
Qed.

Lemma map_item_ext (f : I * A → K * V) (v : I → A → V) (l : list (I * A)) :
  (∀ i a, f (i, a) = (kf i, v i a)) → map f l = omap (item kf (λ i a, Some (v i a))) l.
Proof.
  intros Hf. induction l as [|[i a] l IH]; csimpl; [done|].
  rewrite Hf, IH. done.
Qed.

(** The items of a comprehension whose values may raise. *)
Lemma for_each_items (h : I → A → result V) (f : I * A → result (K * V))
    (l : list (I * A)) (bs : list (K * V)) :
  (∀ i a, f (i, a) = (h i a ≫= λ v, Ok (kf i, v))) →
  for_each f l = Ok bs →
  bs = omap (item kf (λ i a, to_option (h i a))) l
  ∧ (∀ i a, (i, a) ∈ l → ∃ v, h i a = Ok v).
Proof.
  intros Hf. revert bs. induction l as [|[i a] l IH]; intros bs; simpl.
  - intros [= <-]. split; [done|]. intros i a Hin. by apply elem_of_nil in Hin.
  - rewrite Hf. destruct (h i a) as [v|e] eqn:Hh; [|discriminate]. simpl.
    destruct (for_each f l) as [bs'|e] eqn:Hrest; [|discriminate]. simpl.
    intros [= <-]. destruct (IH bs' eq_refl) as [-> Hall]. split.
    + csimpl. unfold item. simpl. by rewrite Hh.
    + intros j b Hin. apply elem_of_cons in Hin as [[= -> ->]|Hin]; eauto.
Qed.

End items.

(** ** Redaction along a path *)

Lemma at_path_atom path v w :
  (∀ vs, v ≠ VList vs) → (∀ kvs, v ≠ VDict kvs) → at_path path v = Some w → w = v.
Proof.
  intros Hl Hd. destruct path as [|[k|i] path]; simpl.
  - by intros [= <-].
  - destruct v as [| | | | |vs|kvs]; try discriminate. by destruct (Hd kvs).
  - destruct v as [| | | | |vs|kvs]; try discriminate. by destruct (Hl vs).
Qed.

(** A dictionary found in redacted data is the redaction of the
    dictionary found at the same place of the data. *)
Lemma at_path_redact placeholder to_redact path data kvs' :
  at_path path (async_redact_data placeholder data to_redact) = Some (VDict kvs') →
  ∃ kvs, at_path path data = Some (VDict kvs)
         ∧ VDict kvs' = async_redact_data placeholder (VDict kvs) to_redact.
Proof.
  revert data. induction path as [|[k|i] path IH]; intros data Hout.
  - simpl in Hout. injection Hout as Hout.
    destruct data as [| | | | |vs|kvs]; try discriminate. by exists kvs.
  - destruct data as [| | | | |vs|kvs]; try discriminate.
    rewrite redact_dict in Hout. simpl in Hout. rewrite dict_get_redact in Hout.
    simpl. destruct (dict_get k kvs) as [v|]; [|discriminate]. simpl in *.
    destruct (is_blank v) eqn:Hblank.
    + apply is_blank_spec in Hblank.
      apply at_path_atom in Hout; destruct Hblank; subst; discriminate.
    + destruct (listed k to_redact).
      * apply at_path_atom in Hout; discriminate.
      * by apply IH.
  - destruct data as [| | | | |vs|kvs]; try discriminate.
    simpl in *. rewrite list_lookup_fmap in Hout.
    destruct (vs !! i) as [v|]; [|discriminate]. simpl in *. by apply IH.
Qed.

(** Under a listed key, redaction puts the placeholder for every value
    but [None] and the empty string, which it keeps. *)
Lemma dict_get_redact_listed placeholder to_redact kvs kvs' k v :
  VDict kvs' = async_redact_data placeholder (VDict kvs) to_redact →
  k ∈ to_redact → dict_get (KStr k) kvs = Some v →
  dict_get (KStr k) kvs' = Some (if is_blank v then v else VStr placeholder).
Proof.
  rewrite redact_dict. intros [= ->] Hk Hv. rewrite dict_get_redact, Hv. simpl.
  by rewrite bool_decide_eq_true_2.
Qed.

Lemma redacted_at_path placeholder to_redact path data kvs' :
  at_path path (async_redact_data placeholder data to_redact) = Some (VDict kvs') →
  ∃ kvs, at_path path data = Some (VDict kvs)
         ∧ dict_keys kvs' = dict_keys kvs
         ∧ ∀ k v, k ∈ to_redact → dict_get (KStr k) kvs = Some v →
             dict_get (KStr k) kvs' = Some (if is_blank v then v else VStr placeholder).
Proof.
  intros Hout. apply at_path_redact in Hout as (kvs & Hdata & Hkvs).
  exists kvs. split; [done|]. split.
  - rewrite redact_dict in Hkvs. injection Hkvs as ->.
    unfold dict_keys. rewrite map_map. done.
  - intros k v. by apply dict_get_redact_listed.
Qed.

(** ** The store of dictionary objects *)

Lemma new_dict_set_item (d : dict) (store : objects) k v :
  let ref := fresh (dom store) in
  store !! ref = None
  ∧ set_item (new_dict d store).1 k v (new_dict d store).2 = <[ref := dict_set k v d]> store
  ∧ content ref (<[ref := dict_set k v d]> store) = dict_set k v d.
Proof.
  intros ref. split; [|split].
  - apply not_elem_of_dom, is_fresh.
  - unfold set_item, new_dict. simpl. apply alter_insert_eq.
  - unfold content. by rewrite lookup_insert_eq.
Qed.

Lemma insert_fresh_frame (d : dict) (store : objects) ref :
  ref ∈ dom store → <[fresh (dom store) := d]> store !! ref = store !! ref.
Proof.
  intros Href. apply lookup_insert_ne. intros Heq.
  apply (is_fresh (dom store)). by rewrite Heq.
Qed.

(** ** The sections of the cluster details *)

Section props.
Context `{Const} `{Binary64} {Hass : Type} `{Helpers Hass}.

Lemma resolves_spec (cluster : Cluster) :
  resolves cluster
  ↔ ∀ u_attr, u_attr ∈ unsupported_attributes cluster →
              ∃ attr_def, find_attribute cluster u_attr = Ok attr_def.
Proof.
  unfold resolves. rewrite Forall_forall.
  split; intros Hall u_attr Hu; specialize (Hall u_attr Hu).
  - destruct (find_attribute cluster u_attr) as [attr_def|e]; [eauto|].
    by destruct Hall as [? [=]].
  - destruct Hall as [attr_def ->]. simpl. eauto.
Qed.

Lemma unsupported_item_Ok (cluster : Cluster) (u_attr : dkey) (kv : dkey * value) :
  unsupported_item cluster u_attr = Ok kv
  ↔ ∃ attr_def,
      find_attribute cluster u_attr = Ok attr_def
      ∧ kv = (KStr (format_0x04x (attr_id attr_def)),
              VDict [(KStr ATTR_ATTRIBUTE_NAME, VStr (attr_name attr_def))]).
Proof.
  unfold unsupported_item.
  destruct (find_attribute cluster u_attr) as [attr_def|e]; simpl.
  - split.
    + intros [= <-]. eauto.
    + intros (? & [= <-] & ->). done.
  - split; [discriminate|]. by intros (? & [=] & _).
Qed.

Lemma get_cluster_attr_data_Ok (cluster : Cluster) (data : dict) :
  get_cluster_attr_data cluster = Ok data
  ↔ ∃ unsupported,
      for_each (unsupported_item cluster) (unsupported_attributes cluster) = Ok unsupported
      ∧ data
        = [(KStr ATTRIBUTES,
            VDict (omap (item (λ attr_id, KStr (format_0x04x attr_id))
                           (λ _ attr_def, attribute_entry cluster attr_def))
                     (map_to_list (attributes cluster))));
           (KStr UNSUPPORTED_ATTRIBUTES, VDict (dict_of unsupported))].
Proof.
  unfold get_cluster_attr_data.
  assert (∀ unsupported : list (dkey * value),
    dict_of [(KStr ATTRIBUTES,
              VDict (dict_of
                (omap (λ '(attr_id, attr_def),
                   let attr_value := get cluster (attr_name attr_def) in
                   if is_not_None attr_value then
                     Some (KStr (format_0x04x attr_id),
                           VDict (dict_of [(KStr ATTR_ATTRIBUTE_NAME, VStr (attr_name attr_def));
                                           (KStr ATTR_VALUE, attr_value)]))
                   else None)
                  (map_to_list (attributes cluster)))));
             (KStr UNSUPPORTED_ATTRIBUTES, VDict (dict_of unsupported))]
    = [(KStr ATTRIBUTES,
        VDict (omap (item (λ attr_id, KStr (format_0x04x attr_id))
                       (λ _ attr_def, attribute_entry cluster attr_def))
                 (map_to_list (attributes cluster))));
       (KStr UNSUPPORTED_ATTRIBUTES, VDict (dict_of unsupported))]) as Hshape.
  { intros unsupported. rewrite (dict_of_NoDup [_; _]).
    - do 3 f_equal.
      rewrite <- (dict_of_map_items (λ attr_id, KStr (format_0x04x attr_id))). f_equal.
      apply omap_item_ext. intros i a. unfold attribute_entry.
      by destruct (is_not_None _).
    - simpl. apply NoDup_cons. split; [|apply NoDup_singleton].
      rewrite list_elem_of_singleton. discriminate. }
  destruct (for_each _ _) as [unsupported|e]; simpl.
  - rewrite Hshape. split.
    + intros [= <-]. eauto.
    + intros (? & [= <-] & ->). done.
  - split; [discriminate|]. by intros (? & [=] & _).
Qed.

(** [get_cluster_attr_data] returns for the clusters that resolve their
    unsupported attributes, and for no other. *)
Lemma get_cluster_attr_data_returns (cluster : Cluster) :
  resolves cluster ↔ ∃ data, get_cluster_attr_data cluster = Ok data.
Proof.
  rewrite resolves_spec. split.
  - intros Hall.
    destruct (proj1 (for_each_succeeds (unsupported_item cluster)
                       (unsupported_attributes cluster))) as [unsupported Hun].
    { intros u_attr Hu. destruct (Hall u_attr Hu) as [attr_def Hdef].
      eexists. apply unsupported_item_Ok. eauto. }
    eexists. apply get_cluster_attr_data_Ok. eauto.
  - intros [data Hdata] u_attr Hu.
    apply get_cluster_attr_data_Ok in Hdata as (unsupported & Hun & _).
    destruct (proj2 (for_each_succeeds (unsupported_item cluster)
                       (unsupported_attributes cluster)) (ex_intro _ _ Hun) u_attr Hu)
      as [kv Hkv].
    apply unsupported_item_Ok in Hkv as (attr_def & Hdef & _). eauto.
Qed.

Lemma cluster_item_eq (cluster_id : N) (cluster : Cluster) :
  cluster_item (cluster_id, cluster)
  = (cluster_entry cluster <$> get_cluster_attr_data cluster)
      ≫= λ v, Ok (KStr (format_0x04x cluster_id), v).
Proof. unfold cluster_item. simpl. by destruct (get_cluster_attr_data cluster). Qed.

Lemma clusters_section_Ok (clusters : gmap N Cluster) (section : dict) :
  clusters_section clusters = Ok section →
  section
  = omap (item (λ cluster_id, KStr (format_0x04x cluster_id))
            (λ _ cluster, to_option (cluster_entry cluster <$> get_cluster_attr_data cluster)))
      (map_to_list clusters)
  ∧ (∀ cluster_id cluster,
       clusters !! cluster_id = Some cluster →
       ∃ data, get_cluster_attr_data cluster = Ok data).
Proof.
  unfold clusters_section.
  destruct (for_each cluster_item (map_to_list clusters)) as [items|e] eqn:Hitems;
    [|discriminate].
  simpl. intros [= <-].
  destruct (for_each_items (λ cluster_id, KStr (format_0x04x cluster_id))
              (λ _ cluster, cluster_entry cluster <$> get_cluster_attr_data cluster)
              cluster_item (map_to_list clusters) items cluster_item_eq Hitems)
    as [-> Hall].
  split.
  - apply (dict_of_map_items (λ cluster_id, KStr (format_0x04x cluster_id))).
  - intros cluster_id cluster Hc. apply elem_of_map_to_list in Hc.
    destruct (Hall _ _ Hc) as [v Hv].
    destruct (get_cluster_attr_data cluster) as [data|e]; [eauto|discriminate].
Qed.

Lemma clusters_section_returns (clusters : gmap N Cluster) :
  map_Forall (λ _ cluster, resolves cluster) clusters
  ↔ ∃ section, clusters_section clusters = Ok section.
Proof.
  split.
  - intros Hall. unfold clusters_section.
    destruct (proj1 (for_each_succeeds cluster_item (map_to_list clusters)))
      as [items ->]; [|simpl; eauto].
    intros [cluster_id cluster] Hc. apply elem_of_map_to_list in Hc.
    apply Hall, get_cluster_attr_data_returns in Hc as [data Hdata].
    rewrite cluster_item_eq, Hdata. simpl. eauto.
  - intros [section Hsection] cluster_id cluster Hc.
    apply clusters_section_Ok in Hsection as [_ Hall].
    apply get_cluster_attr_data_returns. eauto.
Qed.

(** The entry of a cluster in the section of its endpoint. *)
Lemma clusters_section_lookup (clusters : gmap N Cluster) (section : dict)
    (cluster_id : N) :
  clusters_section clusters = Ok section →
  match clusters !! cluster_id with
  | Some cluster =>
      ∃ data, get_cluster_attr_data cluster = Ok data
              ∧ dict_get (KStr (format_0x04x cluster_id)) section
                = Some (cluster_entry cluster data)
  | None => dict_get (KStr (format_0x04x cluster_id)) section = None
  end.
Proof.
  intros Hsection. apply clusters_section_Ok in Hsection as [-> Hall].
  rewrite (dict_get_map_items (λ cluster_id, KStr (format_0x04x cluster_id))).
  destruct (clusters !! cluster_id) as [cluster|] eqn:Hc; simpl; [|done].
  destruct (Hall _ _ Hc) as [data Hdata]. exists data. by rewrite Hdata.
Qed.

Lemma clusters_section_keys (clusters : gmap N Cluster) (section : dict) (k : dkey) :
  clusters_section clusters = Ok section →
  k ∈ dict_keys section
  ↔ ∃ cluster_id, k = KStr (format_0x04x cluster_id) ∧ is_Some (clusters !! cluster_id).
Proof.
  intros Hsection. apply clusters_section_Ok in Hsection as [-> Hall].
  rewrite (dict_keys_map_items (λ cluster_id, KStr (format_0x04x cluster_id))). split.
  - intros (c & e & v & -> & He & _). eauto.
  - intros (c & -> & [cluster Hc]). destruct (Hall _ _ Hc) as [data Hdata].
    exists c, cluster, (cluster_entry cluster data). by rewrite Hdata.
Qed.

Lemma endpoint_details_Ok (endpoint : Endpoint) (details : dict) :
  endpoint_details endpoint = Ok details
  ↔ ∃ ins outs,
      clusters_section (in_clusters endpoint) = Ok ins
      ∧ clusters_section (out_clusters endpoint) = Ok outs
      ∧ details
        = dict_of [
            (KStr ATTR_DEVICE_TYPE,
             VDict (dict_of [(KStr CONF_NAME, VStr (endpoint_key endpoint));
                             (KStr CONF_ID, opt_int (device_type endpoint))]));
            (KStr ATTR_PROFILE_ID, opt_int (profile_id endpoint));
            (KStr ATTR_IN_CLUSTERS, VDict ins);
            (KStr ATTR_OUT_CLUSTERS, VDict outs)].
Proof.
  unfold endpoint_details.
  destruct (clusters_section (in_clusters endpoint)) as [ins|e]; simpl.
  - destruct (clusters_section (out_clusters endpoint)) as [outs|e]; simpl.
    + split.
      * intros [= <-]. eauto.
      * intros (? & ? & [= <-] & [= <-] & ->). done.
    + split; [discriminate|]. by intros (? & ? & _ & [=] & _).
  - split; [discriminate|]. by intros (? & ? & [=] & _).
Qed.

Lemma endpoint_details_returns (endpoint : Endpoint) :
  endpoint_resolves endpoint ↔ ∃ details, endpoint_details endpoint = Ok details.
Proof.
  unfold endpoint_resolves. rewrite !clusters_section_returns. split.
  - intros [[ins Hins] [outs Houts]]. eexists. apply endpoint_details_Ok. eauto.
  - intros [details Hd]. apply endpoint_details_Ok in Hd as (ins & outs & ? & ? & _).
    eauto.
Qed.

(** *** The loop over the endpoints *)

Lemma endpoint_step_Raise (l : list (N * Endpoint)) (e : exn) :
  fold_left endpoint_step l (Raise e) = Raise e.
Proof. induction l as [|item l IH]; simpl; [done|]. apply IH. Qed.

Lemma endpoint_loop_Ok (l : list (N * Endpoint)) (d details : dict) :
  fold_left endpoint_step l (Ok d) = Ok details →
  details
  = dict_update d
      (omap (item (λ ep_id, KInt (Z.of_N ep_id))
               (λ ep_id endpoint,
                  if decide (ep_id = 0%N) then None
                  else to_option (VDict <$> endpoint_details endpoint))) l)
  ∧ (∀ ep_id endpoint,
       (ep_id, endpoint) ∈ l → ep_id ≠ 0%N →
       ∃ entry, endpoint_details endpoint = Ok entry).
Proof.
  revert d. induction l as [|[ep_id endpoint] l IH]; intros d; simpl.
  - intros [= <-]. split; [done|]. intros ? ? Hin. by apply elem_of_nil in Hin.
  - unfold item at 1. simpl. destruct (decide (ep_id = 0%N)) as [->|Hne]; simpl.
    + intros Hrun. destruct (IH _ Hrun) as [-> Hall]. split; [done|].
      intros i e Hin Hi. apply elem_of_cons in Hin as [[= -> ->]|Hin]; [done|eauto].
    + destruct (endpoint_details endpoint) as [entry|e] eqn:Hentry; simpl.
      * intros Hrun. destruct (IH _ Hrun) as [-> Hall]. split; [done|].
        intros i e Hin Hi. apply elem_of_cons in Hin as [[= -> ->]|Hin]; eauto.
      * rewrite endpoint_step_Raise. discriminate.
Qed.

Lemma endpoint_loop_returns (l : list (N * Endpoint)) (d : dict) :
  (∀ ep_id endpoint,
     (ep_id, endpoint) ∈ l → ep_id ≠ 0%N →
     ∃ entry, endpoint_details endpoint = Ok entry) →
  ∃ details, fold_left endpoint_step l (Ok d) = Ok details.
Proof.
  revert d. induction l as [|[ep_id endpoint] l IH]; intros d Hall; simpl; [eauto|].
  destruct (decide (ep_id = 0%N)) as [->|Hne]; simpl.
  - apply IH. intros i e Hin. apply Hall. by right.
  - destruct (Hall ep_id endpoint) as [entry ->]; [left|done|]. simpl.
    apply IH. intros i e Hin. apply Hall. by right.
Qed.

Lemma get_endpoint_cluster_attr_data_Ok (zha_device : ZHADevice) (details : dict) :
  get_endpoint_cluster_attr_data zha_device = Ok details →
  details
  = omap (item (λ ep_id, KInt (Z.of_N ep_id))
            (λ ep_id endpoint,
               if decide (ep_id = 0%N) then None
               else to_option (VDict <$> endpoint_details endpoint)))
      (map_to_list (endpoints (device zha_device)))
  ∧ device_resolves zha_device.
Proof.
  unfold get_endpoint_cluster_attr_data. intros Hrun.
  apply endpoint_loop_Ok in Hrun as [-> Hall]. split.
  - apply (dict_of_map_items (λ ep_id, KInt (Z.of_N ep_id))).
  - intros ep_id endpoint Hep Hne. apply endpoint_details_returns.
    apply elem_of_map_to_list in Hep. eauto.
Qed.

(** [get_endpoint_cluster_attr_data] returns for the devices whose
    clusters, on the endpoints other than endpoint 0, resolve their
    unsupported attributes, and for no other. *)
Lemma get_endpoint_cluster_attr_data_returns (zha_device : ZHADevice) :
  device_resolves zha_device
  ↔ ∃ details, get_endpoint_cluster_attr_data zha_device = Ok details.
Proof.
  split.
  - intros Hall. apply endpoint_loop_returns. intros ep_id endpoint Hep Hne.
    apply elem_of_map_to_list in Hep. apply endpoint_details_returns.
    by apply (Hall ep_id endpoint).
  - intros [details Hrun]. by apply get_endpoint_cluster_attr_data_Ok in Hrun as [_ ?].
Qed.

Lemma is_not_None_spec v : is_not_None v = true ↔ v ≠ VNone.
Proof. destruct v; simpl; split; congruence. Qed.

Lemma energy_scan_section_items (scan : gmap Z Q) :
  energy_scan_section scan
  = omap (item KInt (λ _ energy, Some (VFloat (float_div (float_mul 100 energy) 255))))
      (map_to_list scan).
Proof.
  rewrite <- (dict_of_map_items KInt).
  unfold energy_scan_section, dict_comp. f_equal.
  by apply (map_item_ext _ _ (λ _ energy, VFloat (float_div (float_mul 100 energy) 255))).
Qed.

Lemma payload_energy_scan (a b c e f : value) :
  dict_get (KStr "energy_scan")
    (dict_of [(KStr "config", a); (KStr "config_entry", b); (KStr "application_state", c);
              (KStr "energy_scan", e); (KStr "versions", f)])
  = Some e.
Proof. reflexivity. Qed.

(** What a run of [async_get_device_diagnostics] returns and the store it
    leaves, with [device_info] the dictionary object the read of
    [zha_device_info] created. *)
Lemma async_get_device_diagnostics_run (hass : Hass) (device : DeviceEntry)
    (store : objects) :
  async_get_device_diagnostics hass device store
  = match async_get_zha_device hass (id device) with
    | Raise e => (Raise e, store)
    | Ok zha_device =>
        let device_info := fresh (dom store) in
        match get_endpoint_cluster_attr_data zha_device with
        | Raise e => (Raise e, <[device_info := zha_device_info zha_device]> store)
        | Ok details =>
            let payload :=
              dict_set (KStr CLUSTER_DETAILS) (VDict details) (zha_device_info zha_device) in
            (Ok (async_redact_data REDACTED (VDict payload) KEYS_TO_REDACT),
             <[device_info := payload]> store)
        end
    end.
Proof.
  unfold async_get_device_diagnostics.
  destruct (async_get_zha_device hass (id device)) as [zha_device|e]; [|done].
  destruct (get_endpoint_cluster_attr_data zha_device) as [details|e]; [|done].
  destruct (new_dict_set_item (zha_device_info zha_device) store
              (KStr CLUSTER_DETAILS) (VDict details)) as (_ & Hset & Hcontent).
  simpl in *. unfold new_dict in Hset. simpl in Hset. rewrite Hset, Hcontent. done.
Qed.

(** C1 (as amended). Both diagnostics operations return their payload
    passed through [async_redact_data] with [KEYS_TO_REDACT], the set of
    the six sensitive keys: the config-entry diagnostics the dictionary of
    the five sections, the device diagnostics the device info with the
    cluster details added. In what they return, every dictionary at every
    depth maps each of these keys to the placeholder, to [None] or to the
    empty string; and a dictionary found along a path in it has the keys
    of the dictionary at that path in the payload, with the placeholder
    for every value of a sensitive key there that is not [None] or the
    empty string. *)
Theorem diagnostics_redacted (hass : Hass) :
  (∀ k, k ∈ KEYS_TO_REDACT
        ↔ k = ATTR_IEEE ∨ k = CONF_UNIQUE_ID ∨ k = CONF_ALARM_MASTER_CODE
          ∨ k = "network_key" ∨ k = CONF_NWK_EXTENDED_PAN_ID ∨ k = "partner_ieee")
  ∧ (∀ config_entry,
       let app := application_controller (get_zha_gateway hass) in
       let payload :=
         VDict [(KStr "config", yaml_config (get_zha_data hass));
                (KStr "config_entry", VDict (config_entry_as_dict config_entry));
                (KStr "application_state", shallow_asdict (state app));
                (KStr "energy_scan",
                 VDict (energy_scan_section (energy_scan app ALL_CHANNELS 4 1)));
                (KStr "versions",
                 VDict [(KStr "bellows", VStr (version "bellows"));
                        (KStr "zigpy", VStr (version "zigpy"));
                        (KStr "zigpy_deconz", VStr (version "zigpy-deconz"));
                        (KStr "zigpy_xbee", VStr (version "zigpy-xbee"));
                        (KStr "zigpy_znp", VStr (version "zigpy_znp"));
                        (KStr "zigpy_zigate", VStr (version "zigpy-zigate"));
                        (KStr "zhaquirks", VStr (version "zha-quirks"))])] in
       let out := async_get_config_entry_diagnostics hass config_entry in
       out = async_redact_data REDACTED payload KEYS_TO_REDACT
       ∧ (∀ kvs k v,
            inside out (VDict kvs) → (KStr k, v) ∈ kvs → k ∈ KEYS_TO_REDACT →
            v = VStr REDACTED ∨ v = VNone ∨ v = VStr "")
       ∧ (∀ path kvs',
            at_path path out = Some (VDict kvs') →
            ∃ kvs, at_path path payload = Some (VDict kvs)
                   ∧ dict_keys kvs' = dict_keys kvs
                   ∧ ∀ k v, k ∈ KEYS_TO_REDACT → dict_get (KStr k) kvs = Some v →
                       dict_get (KStr k) kvs'
                       = Some (if is_blank v then v else VStr REDACTED)))
  ∧ (∀ device store zha_device details,
       async_get_zha_device hass (id device) = Ok zha_device →
       get_endpoint_cluster_attr_data zha_device = Ok details →
       let payload :=
         VDict (dict_set (KStr CLUSTER_DETAILS) (VDict details)
                  (zha_device_info zha_device)) in
       ∃ out,
         (async_get_device_diagnostics hass device store).1 = Ok out
         ∧ out = async_redact_data REDACTED payload KEYS_TO_REDACT
         ∧ (∀ kvs k v,
              inside out (VDict kvs) → (KStr k, v) ∈ kvs → k ∈ KEYS_TO_REDACT →
              v = VStr REDACTED ∨ v = VNone ∨ v = VStr "")
         ∧ (∀ path kvs',
              at_path path out = Some (VDict kvs') →
              ∃ kvs, at_path path payload = Some (VDict kvs)
                     ∧ dict_keys kvs' = dict_keys kvs
                     ∧ ∀ k v, k ∈ KEYS_TO_REDACT → dict_get (KStr k) kvs = Some v →
                         dict_get (KStr k) kvs'
                         = Some (if is_blank v then v else VStr REDACTED))).
Proof.
  split; [|split].
  - intros k. unfold KEYS_TO_REDACT. rewrite !elem_of_union, !elem_of_singleton. tauto.
  - intros config_entry app payload out.
    assert (out = async_redact_data REDACTED payload KEYS_TO_REDACT) as Hout by reflexivity.
    split; [done|]. rewrite Hout. split.
    + intros kvs k v. apply redacted_everywhere.
    + intros path kvs'. apply redacted_at_path.
  - intros device store zha_device details Hdev Hdetails payload.
    eexists. split; [|split; [reflexivity|split]].
    + rewrite async_get_device_diagnostics_run, Hdev. simpl. rewrite Hdetails. done.
    + intros kvs k v. apply redacted_everywhere.
    + intros path kvs'. apply redacted_at_path.
Qed.


(** C8. Unless ["energy_scan"] is itself a key to redact, the diagnostics
    of a config entry hold under ["energy_scan"] a dictionary that maps
    each channel of the scan, and nothing else, to the float
    [100 * energy / 255] of its energy. For an energy between 0 and 255
    this float lies between 0 and 100. *)
Theorem energy_scan_percent (hass : Hass) (config_entry : ConfigEntry) :
  "energy_scan" ∉ KEYS_TO_REDACT →
  let scan := energy_scan (application_controller (get_zha_gateway hass)) ALL_CHANNELS 4 1 in
  ∃ diagnostics section,
    async_get_config_entry_diagnostics hass config_entry = VDict diagnostics
    ∧ dict_get (KStr "energy_scan") diagnostics = Some (VDict section)
    ∧ (∀ channel,
         dict_get (KInt channel) section
         = (λ energy, VFloat (float_div (float_mul 100 energy) 255)) <$> scan !! channel)
    ∧ (∀ k, k ∈ dict_keys section ↔ ∃ channel, k = KInt channel ∧ is_Some (scan !! channel))
    ∧ (∀ channel energy,
         scan !! channel = Some energy → (0 <= energy)%Q → (energy <= 255)%Q →
         (0 <= float_div (float_mul 100 energy) 255)%Q
         ∧ (float_div (float_mul 100 energy) 255 <= 100)%Q).
Proof.
  intros Hkey scan.
  eexists _, (energy_scan_section scan). split; [|split; [|split; [|split]]].
  - unfold async_get_config_entry_diagnostics. rewrite redact_dict. reflexivity.
  - rewrite dict_get_redact, payload_energy_scan. simpl.
    rewrite bool_decide_eq_false_2 by done. f_equal.
    apply redact_numbers. rewrite energy_scan_section_items.
    apply Forall_forall. intros [k v] Hin.
    apply list_elem_of_omap in Hin as ([c q] & _ & Hitem).
    unfold item in Hitem. simpl in Hitem. simplify_eq. eauto.
  - intros channel. rewrite energy_scan_section_items.
    rewrite (dict_get_map_items KInt). by destruct (scan !! channel).
  - intros k. rewrite energy_scan_section_items, (dict_keys_map_items KInt). split.
    + intros (c & q & v & -> & Hc & _). eauto.
    + intros (c & -> & [q Hq]). eauto 10.
  - intros channel energy _. apply percent_bounds.
Qed.

(** C9 (as amended). [get_endpoint_cluster_attr_data] returns exactly for
    the devices whose clusters, on the endpoints other than endpoint 0,
    all resolve their unsupported attributes. The cluster details it
    returns hold one entry for each endpoint of the device with a non-zero
    id, under that id, and none for endpoint 0. Cluster and attribute ids
    are rendered by [format_0x04x], which for an id below 65536 gives [0x]
    and four lowercase hexadecimal digits. The attributes section of a
    cluster holds exactly the defined attributes for which [cluster.get]
    gives a value other than [None]. The name of the device type is
    [UNKNOWN] when the profile id is not in [PROFILES] or the device type
    is [None], and the profile's name of the device type otherwise. *)
Theorem endpoint_cluster_attr_data_spec (zha_device : ZHADevice) :
  let eps := endpoints (device zha_device) in
  (device_resolves zha_device
   ↔ ∃ details, get_endpoint_cluster_attr_data zha_device = Ok details)
  ∧ (∀ details,
       get_endpoint_cluster_attr_data zha_device = Ok details →
       dict_get (KInt 0) details = None
       ∧ (∀ ep_id endpoint,
            eps !! ep_id = Some endpoint → ep_id ≠ 0%N →
            ∃ entry, endpoint_details endpoint = Ok entry
                     ∧ dict_get (KInt (Z.of_N ep_id)) details = Some (VDict entry))
       ∧ (∀ k, k ∈ dict_keys details
               ↔ ∃ ep_id, k = KInt (Z.of_N ep_id) ∧ ep_id ≠ 0%N ∧ is_Some (eps !! ep_id)))
  ∧ (∀ endpoint entry,
       endpoint_details endpoint = Ok entry →
       ∃ ins outs,
         clusters_section (in_clusters endpoint) = Ok ins
         ∧ clusters_section (out_clusters endpoint) = Ok outs
         ∧ (NoDup [ATTR_DEVICE_TYPE; ATTR_PROFILE_ID; ATTR_IN_CLUSTERS; ATTR_OUT_CLUSTERS] →
            CONF_NAME ≠ CONF_ID →
            entry
            = [(KStr ATTR_DEVICE_TYPE,
                VDict [(KStr CONF_NAME, VStr (endpoint_key endpoint));
                       (KStr CONF_ID, opt_int (device_type endpoint))]);
               (KStr ATTR_PROFILE_ID, opt_int (profile_id endpoint));
               (KStr ATTR_IN_CLUSTERS, VDict ins);
               (KStr ATTR_OUT_CLUSTERS, VDict outs)]))
  ∧ (∀ clusters section,
       clusters_section clusters = Ok section →
       (∀ cluster_id cluster,
          clusters !! cluster_id = Some cluster →
          ∃ data, get_cluster_attr_data cluster = Ok data
                  ∧ dict_get (KStr (format_0x04x cluster_id)) section
                    = Some (cluster_entry cluster data))
       ∧ (∀ k, k ∈ dict_keys section
               ↔ ∃ cluster_id,
                   k = KStr (format_0x04x cluster_id) ∧ is_Some (clusters !! cluster_id)))
  ∧ (∀ cluster data,
       get_cluster_attr_data cluster = Ok data →
       ∃ attrs unsupported,
         data = [(KStr ATTRIBUTES, VDict attrs); (KStr UNSUPPORTED_ATTRIBUTES, VDict unsupported)]
         ∧ cluster_entry cluster data
           = VDict [(KStr "endpoint_attribute", ep_attribute cluster);
                    (KStr ATTRIBUTES, VDict attrs);
                    (KStr UNSUPPORTED_ATTRIBUTES, VDict unsupported)]
         ∧ (∀ attr_id,
              dict_get (KStr (format_0x04x attr_id)) attrs
              = attributes cluster !! attr_id ≫= attribute_entry cluster)
         ∧ (∀ k, k ∈ dict_keys attrs
                 ↔ ∃ attr_id attr_def,
                     k = KStr (format_0x04x attr_id)
                     ∧ attributes cluster !! attr_id = Some attr_def
                     ∧ get cluster (attr_name attr_def) ≠ VNone))
  ∧ (∀ n, (n < 65536)%N →
       format_0x04x n
       = String "0" (String "x"
           (String (hex_digit (n / 4096))
             (String (hex_digit (n / 256 mod 16))
               (String (hex_digit (n / 16 mod 16))
                 (String (hex_digit (n mod 16)) ""))))))
  ∧ (∀ d, hex_digit d ∈ list_ascii_of_string "0123456789abcdef")
  ∧ (∀ endpoint,
       (∀ pid, profile_id endpoint = Some pid → PROFILES !! pid = None)
       ∨ device_type endpoint = None →
       endpoint_key endpoint = UNKNOWN)
  ∧ (∀ endpoint pid dt DeviceType,
       profile_id endpoint = Some pid → PROFILES !! pid = Some DeviceType →
       device_type endpoint = Some dt →
       endpoint_key endpoint = DeviceType dt).
Proof.
  intros eps. subst eps.
  repeat match goal with |- _ ∧ _ => split end.
  - apply get_endpoint_cluster_attr_data_returns.
  - intros details Hrun. apply get_endpoint_cluster_attr_data_Ok in Hrun as [-> Hall].
    assert (∀ ep_id endpoint,
              endpoints (device zha_device) !! ep_id = Some endpoint → ep_id ≠ 0%N →
              ∃ entry, endpoint_details endpoint = Ok entry) as Hentry.
    { intros ep_id endpoint Hep Hne. apply endpoint_details_returns.
      by apply (Hall ep_id endpoint). }
    split; [|split].
    + change (KInt 0) with (KInt (Z.of_N 0)).
      rewrite (dict_get_map_items (λ ep_id, KInt (Z.of_N ep_id))).
      by destruct (endpoints (device zha_device) !! 0%N).
    + intros ep_id endpoint Hep Hne. destruct (Hentry _ _ Hep Hne) as [entry Hok].
      exists entry. split; [done|].
      rewrite (dict_get_map_items (λ ep_id, KInt (Z.of_N ep_id))), Hep. simpl.
      rewrite decide_False by done. by rewrite Hok.
    + intros k. rewrite (dict_keys_map_items (λ ep_id, KInt (Z.of_N ep_id))). split.
      * intros (ep & e & v & -> & He & Hv). exists ep.
        rewrite He. destruct (decide (ep = 0%N)); [done|]. eauto.
      * intros (ep & -> & Hne & [e He]). destruct (Hentry _ _ He Hne) as [entry Hok].
        exists ep, e, (VDict entry). rewrite decide_False by done. by rewrite Hok.
  - intros endpoint entry Hentry.
    apply endpoint_details_Ok in Hentry as (ins & outs & Hins & Houts & ->).
    exists ins, outs. split; [done|]. split; [done|]. intros Hkeys Hname.
    rewrite (dict_of_NoDup [_; _; _; _]), (dict_of_NoDup [_; _]); [done| |].
    + simpl. apply NoDup_cons. split; [|apply NoDup_singleton].
      rewrite list_elem_of_singleton. congruence.
    + simpl. change [KStr ATTR_DEVICE_TYPE; KStr ATTR_PROFILE_ID; KStr ATTR_IN_CLUSTERS;
                      KStr ATTR_OUT_CLUSTERS]
        with (KStr <$> [ATTR_DEVICE_TYPE; ATTR_PROFILE_ID; ATTR_IN_CLUSTERS; ATTR_OUT_CLUSTERS]).
      apply NoDup_fmap_2; [|done]. by intros a b [= ->].
  - intros clusters section Hsection. split.
    + intros cluster_id cluster Hc.
      pose proof (clusters_section_lookup clusters section cluster_id Hsection) as Hlook.
      by rewrite Hc in Hlook.
    + intros k. by apply clusters_section_keys.
  - intros cluster data Hdata.
    apply get_cluster_attr_data_Ok in Hdata as (unsupported & _ & ->).
    eexists _, _. split; [reflexivity|]. split; [|split].
    + reflexivity.
    + intros attr_id.
      by rewrite (dict_get_map_items (λ attr_id, KStr (format_0x04x attr_id))).
    + intros k.
      rewrite (dict_keys_map_items (λ attr_id, KStr (format_0x04x attr_id))). split.
      * intros (a & def & v & -> & Hdef & Hv). exists a, def.
        split; [done|]. split; [done|]. apply is_not_None_spec.
        unfold attribute_entry in Hv. by destruct (is_not_None _).
      * intros (a & def & -> & Hdef & Hv). apply is_not_None_spec in Hv.
        eexists a, def, _. split; [done|]. split; [done|].
        unfold attribute_entry. by rewrite Hv.
  - apply format_0x04x_uint16.
  - intros d. unfold hex_digit. simpl.
    repeat (match goal with |- context [match ?x with _ => _ end] => destruct x end);
      rewrite !elem_of_cons; tauto.
  - intros endpoint [Hpid|Hdt]; unfold endpoint_key.
    + destruct (profile_id endpoint) as [pid|]; simpl; [|done].
      by rewrite (Hpid pid eq_refl).
    + rewrite Hdt. by destruct (_ ≫= _).
  - intros endpoint pid dt DeviceType Hpid Hprofile Hdt. unfold endpoint_key.
    rewrite Hpid, Hdt. simpl. by rewrite Hprofile.
Qed.

End props.

(** ** The properties at the sample network *)

(** C1 (as stated) fails: a config entry without a unique id keeps [None]
    under [unique_id], one of the keys to redact, in the diagnostics. *)
Lemma unset_unique_id_is_kept :
  ∃ diagnostics entry,
    @async_get_config_entry_diagnostics sample_const grid_rounding unit sample_helpers tt
      sample_config_entry
    = VDict diagnostics
    ∧ dict_get (KStr "config_entry") diagnostics = Some (VDict entry)
    ∧ "unique_id" ∈ @KEYS_TO_REDACT sample_const
    ∧ dict_get (KStr "unique_id") entry = Some VNone
    ∧ VNone ≠ VStr (@REDACTED sample_const).
Proof.
  eexists _, _. split; [reflexivity|]. split; [reflexivity|]. split; [|split].
  - apply (bool_decide_unpack _). vm_compute. exact I.
  - reflexivity.
  - discriminate.
Qed.


Lemma energy_scan_percent_witness :
  ∃ diagnostics section,
    @async_get_config_entry_diagnostics sample_const grid_rounding unit sample_helpers tt
      sample_config_entry
    = VDict diagnostics
    ∧ dict_get (KStr "energy_scan") diagnostics = Some (VDict section)
    ∧ dict_get (KInt 15) section
      = Some (VFloat (@float_div grid_rounding (@float_mul grid_rounding 100 51) 255))
    ∧ (@float_div grid_rounding (@float_mul grid_rounding 100 51) 255 == 20)%Q
    ∧ dict_get (KInt 12) section = None.
Proof.
  assert ("energy_scan" ∉ @KEYS_TO_REDACT sample_const) as Hkey.
  { apply (bool_decide_unpack _). vm_compute. exact I. }
  destruct (@energy_scan_percent sample_const grid_rounding unit sample_helpers tt
              sample_config_entry Hkey)
    as (diagnostics & section & Hrun & Hsection & Hchannel & _).
  exists diagnostics, section. split; [exact Hrun|]. split; [exact Hsection|].
  rewrite !Hchannel. split; [reflexivity|]. split; [|reflexivity].
  vm_compute. reflexivity.
Defined.

Lemma endpoint_cluster_attr_data_spec_witness :
  ∃ details,
    @get_endpoint_cluster_attr_data sample_const unit sample_helpers sample_zha_device
    = Ok details
    ∧ dict_keys details = [KInt 1].
Proof.
  destruct (proj1 (proj1 (@endpoint_cluster_attr_data_spec sample_const unit sample_helpers
                            sample_zha_device)))
    as [details Hrun].
  { apply (bool_decide_unpack _). vm_compute. exact I. }
  exists details. split; [exact Hrun|].
  vm_compute in Hrun. injection Hrun as <-. reflexivity.
Defined.

(** C9 (as stated) fails: for a device with a cluster that lists as
    unsupported an attribute it does not define,
    [get_endpoint_cluster_attr_data] raises the [KeyError] of
    [find_attribute] and returns no cluster details. *)
Lemma undefined_unsupported_attribute_raises :
  @get_endpoint_cluster_attr_data sample_const unit sample_helpers stray_zha_device
  = Raise (KeyError "attribute")
  ∧ ¬ ∃ details,
        @get_endpoint_cluster_attr_data sample_const unit sample_helpers stray_zha_device
        = Ok details.
Proof.
  assert (@get_endpoint_cluster_attr_data sample_const unit sample_helpers stray_zha_device
          = Raise (KeyError "attribute")) as Hrun by (vm_compute; reflexivity).
  split; [exact Hrun|]. rewrite Hrun. by intros [details [=]].
Qed.

End zha_props.

(** * Further properties of the MySensors config flow *)

Module mysensors_more.
Import mysensors mysensors_steps.

Local Open Scope list_scope.

Lemma bind_Ok {A B} (m : result A) (f : A → result B) b :
  m ≫= f = Ok b → ∃ a, m = Ok a ∧ f a = Ok b.
Proof. destruct m as [a|e]; [eauto|discriminate]. Qed.

Lemma subscript_Ok {V} (d : gmap string V) k v : subscript d k = Ok v → d !! k = Some v.
Proof. unfold subscript. destruct (d !! k); [congruence|discriminate]. Qed.

Lemma subscript_Some {V} (d : gmap string V) k v : d !! k = Some v → subscript d k = Ok v.
Proof. unfold subscript. by intros ->. Qed.

Lemma py_eqb_str t v : py_eqb (VStr t) v = true ↔ v = VStr t.
Proof.
  destruct v; simpl; try (split; [discriminate|congruence]).
  rewrite bool_decide_eq_true. split; congruence.
Qed.

Section more.
Context `{Const, Helpers}.

Lemma _validate_topic_Ok (self : Flow) user_input errors topic_key errors' :
  _validate_topic self user_input errors topic_key = Ok errors' →
  is_Some (user_input !! topic_key).
Proof.
  unfold _validate_topic. intros Hrun.
  apply bind_Ok in Hrun as (topic & Htopic & _).
  apply subscript_Ok in Htopic. eauto.
Qed.

Lemma validate_common_Ok (self : Flow) gw_type errors user_input errors' :
  validate_common self gw_type errors user_input = Ok errors' →
  is_Some (user_input !! CONF_VERSION)
  ∧ (gw_type ≠ CONF_GATEWAY_TYPE_MQTT → is_Some (user_input !! CONF_DEVICE)).
Proof.
  unfold validate_common. intros Hrun.
  apply bind_Ok in Hrun as (version & Hversion & Hrun).
  apply subscript_Ok in Hversion. split; [eauto|]. intros Hgw.
  apply bind_Ok in Hrun as (errors1 & Hdevice & _).
  rewrite decide_True in Hdevice by done.
  apply bind_Ok in Hdevice as (device & Hdevice & _).
  apply subscript_Ok in Hdevice. eauto.
Qed.

(** X1. Validation only completes for a submission that has both topic
    prefixes and the version, and, unless the gateway type is MQTT, the
    device: without one of them it raises instead of returning errors. *)
Theorem validation_reads_required_keys (self : Flow) (gw_type : string)
    (user_input : gmap string value) (errors : gmap string string) :
  validation self gw_type user_input = Ok errors →
  is_Some (user_input !! CONF_TOPIC_IN_PREFIX)
  ∧ is_Some (user_input !! CONF_TOPIC_OUT_PREFIX)
  ∧ is_Some (user_input !! CONF_VERSION)
  ∧ (gw_type ≠ CONF_GATEWAY_TYPE_MQTT → is_Some (user_input !! CONF_DEVICE)).
Proof.
  unfold validation. intros Hrun.
  apply bind_Ok in Hrun as (errors1 & Hin & Hrun).
  apply bind_Ok in Hrun as (errors2 & Hout & Hrun).
  apply bind_Ok in Hrun as (errors3 & Hcommon & _).
  apply _validate_topic_Ok in Hin. apply _validate_topic_Ok in Hout.
  apply validate_common_Ok in Hcommon as [Hversion Hdevice]. done.
Qed.

(** X2. When validation passes and the submission has no device field,
    which the MQTT path allows since it never reads the device, the step
    raises [KeyError] while building the title instead of creating the
    entry. *)
Theorem entry_without_device_raises (self : Flow) (s : gateway_step)
    (user_input : gmap string value) :
  (s = gw_mqtt → MQTT_COMPONENT ∈ components self) →
  validation self (step_gw_type s) user_input = Ok ∅ →
  user_input !! CONF_DEVICE = None →
  async_step s self (Some user_input) = Raise (KeyError CONF_DEVICE).
Proof.
  intros Hmqtt Hval Hdev.
  assert (async_step s self (Some user_input)
          = _async_create_gateway_entry self (Some user_input) (step_gw_type s)
              (match s with gw_serial => "gw_serial" | gw_tcp => "gw_tcp"
                          | gw_mqtt => "gw_mqtt" end)) as ->.
  { destruct s; try reflexivity. simpl. unfold async_step_gw_mqtt.
    rewrite decide_False; [done|]. intros Hn. by apply Hn, Hmqtt. }
  unfold _async_create_gateway_entry. rewrite Hval. simpl.
  unfold _async_create_entry, subscript. by rewrite Hdev.
Qed.

Lemma gateway_schema_TypeError user_input gw_type :
  _get_gateway_schema user_input gw_type = Raise (TypeError "keywords must be strings").
Proof.
  unfold _get_gateway_schema, _get_common_schema, schema_of. simpl.
  by destruct (decide _).
Qed.

(** X3. No gateway step ever shows its form. The schema of the form is
    built by unpacking the common schema, a dictionary keyed by marker
    objects, into keyword arguments, which raises [TypeError]: so does the
    first call of a step (no input yet), and so does a submission whose
    validation found errors. *)
Theorem form_is_never_shown (self : Flow) (gw_type step_id : string) :
  _async_create_gateway_entry self None gw_type step_id
  = Raise (TypeError "keywords must be strings")
  ∧ (∀ user_input errors,
       validation self gw_type user_input = Ok errors → errors ≠ ∅ →
       _async_create_gateway_entry self (Some user_input) gw_type step_id
       = Raise (TypeError "keywords must be strings"))
  ∧ (∀ user_input shown_step schema errors,
       _async_create_gateway_entry self user_input gw_type step_id
       ≠ Ok (ShowForm shown_step schema errors)).
Proof.
  split; [|split].
  - unfold _async_create_gateway_entry. by rewrite gateway_schema_TypeError.
  - intros user_input errors Hval Hne. unfold _async_create_gateway_entry.
    rewrite Hval. simpl. rewrite decide_False by done.
    by rewrite gateway_schema_TypeError.
  - intros [user_input|] shown_step schema errors; unfold _async_create_gateway_entry.
    + destruct (validation self gw_type user_input) as [errors'|e]; simpl; [|discriminate].
      destruct (decide (errors' = ∅)).
      * unfold _async_create_entry. destruct (subscript user_input CONF_DEVICE); discriminate.
      * by rewrite gateway_schema_TypeError.
    + by rewrite gateway_schema_TypeError.
Qed.

(** X4. What [_validate_topic] does with a submitted topic: a topic that
    [valid_subscribe_topic] rejects with [vol.Invalid] is recorded as
    [invalid_<key>_topic], a valid topic that an existing entry already
    uses as [duplicate_<key>], any other valid topic leaves [errors] as it
    was, and another exception escapes. Only the entry of [errors] for the
    topic's own key can change. *)
Theorem validate_topic_outcomes (self : Flow) (user_input : gmap string value)
    (errors : gmap string string) (topic_key : string) (topic : value) :
  user_input !! topic_key = Some topic →
  (∀ msg, valid_subscribe_topic topic = Raise (Invalid msg) →
     _validate_topic self user_input errors topic_key
     = Ok (<[topic_key := "invalid_" +:+ topic_key +:+ "_topic"]> errors))
  ∧ (∀ v, valid_subscribe_topic topic = Ok v → _check_topic_exists self topic = true →
       _validate_topic self user_input errors topic_key
       = Ok (<[topic_key := "duplicate_" +:+ topic_key]> errors))
  ∧ (∀ v, valid_subscribe_topic topic = Ok v → _check_topic_exists self topic = false →
       _validate_topic self user_input errors topic_key = Ok errors)
  ∧ (∀ e, valid_subscribe_topic topic = Raise e → (∀ msg, e ≠ Invalid msg) →
       _validate_topic self user_input errors topic_key = Raise e)
  ∧ (∀ errors', _validate_topic self user_input errors topic_key = Ok errors' →
       ∀ k, k ≠ topic_key → errors' !! k = errors !! k).
Proof.
  intros Htopic. unfold _validate_topic. rewrite (subscript_Some _ _ _ Htopic). simpl.
  repeat split.
  - intros msg ->. reflexivity.
  - intros v -> Hdup. simpl. by rewrite Hdup.
  - intros v -> Hdup. simpl. by rewrite Hdup.
  - intros e -> He. destruct e; try reflexivity. by destruct (He msg).
  - intros errors' Hrun k Hk.
    destruct (valid_subscribe_topic topic) as [v|[]]; simpl in Hrun; try discriminate.
    + destruct (_check_topic_exists self topic); simplify_eq; [|done].
      by rewrite lookup_insert_ne.
    + simplify_eq. by rewrite lookup_insert_ne.
Qed.

(** X5. [_check_topic_exists] finds a topic exactly when some existing
    entry has it as its incoming or as its outgoing prefix, whichever of
    the two the new topic is meant for; with no entries nothing is found. *)
Theorem check_topic_exists_spec (self : Flow) :
  (current_entries self = [] → ∀ topic, _check_topic_exists self topic = false)
  ∧ (∀ t : string,
       _check_topic_exists self (VStr t) = true
       ↔ ∃ entry, entry ∈ current_entries self
                  ∧ (data entry !! CONF_TOPIC_IN_PREFIX = Some (VStr t)
                     ∨ data entry !! CONF_TOPIC_OUT_PREFIX = Some (VStr t))).
Proof.
  unfold _check_topic_exists. split.
  - intros -> topic. reflexivity.
  - intros t. rewrite existsb_exists. split.
    + intros (entry & Hin & Heq). exists entry. split; [by apply list_elem_of_In|].
      apply orb_true_iff in Heq as [Heq|Heq]; apply py_eqb_str in Heq.
      * left. by destruct (data entry !! CONF_TOPIC_IN_PREFIX); simplify_eq/=.
      * right. by destruct (data entry !! CONF_TOPIC_OUT_PREFIX); simplify_eq/=.
    + intros (entry & Hin & Heq). exists entry. split; [by apply list_elem_of_In|].
      apply orb_true_iff. destruct Heq as [->| ->]; [left|right]; by apply py_eqb_str.
Qed.


(** X6. When [validate_common] returns no error, the gateway answered
    [try_connect] and no existing entry is the same device. If moreover
    no persistence file was submitted, it was also given no error to start
    with, the version check found none, and, unless the gateway type is
    MQTT, the device passed the check for its type (socket address for
    TCP, serial port otherwise). *)
Theorem validate_common_success (self : Flow) (gw_type : string)
    (errors : gmap string string) (user_input : gmap string value) :
  validate_common self gw_type errors user_input = Ok ∅ →
  try_connect gw_type user_input = true
  ∧ (∀ entry, entry ∈ current_entries self →
       _is_same_device gw_type user_input entry = false)
  ∧ (truthy (default VNone (user_input !! CONF_PERSISTENCE_FILE)) = false →
       errors = ∅
       ∧ (∃ version,
            user_input !! CONF_VERSION = Some version ∧ _validate_version version = ∅)
       ∧ (gw_type ≠ CONF_GATEWAY_TYPE_MQTT →
            ∃ device checked,
              user_input !! CONF_DEVICE = Some device
              ∧ (if decide (gw_type = CONF_GATEWAY_TYPE_TCP)
                 then is_socket_address device else is_serial_port device) = Ok checked)).
Proof.
  unfold validate_common. intros Hrun.
  apply bind_Ok in Hrun as (version & Hversion & Hrun).
  apply subscript_Ok in Hversion.
  apply bind_Ok in Hrun as (errors1 & Hdevice & Hrun).
  revert Hrun.
  set (errors2 := if truthy _ then _ else errors1).
  intros Hrun. injection Hrun as Hrun.
  destruct (decide (errors2 = ∅)) as [Hempty|Hne]; cycle 1.
  { rewrite decide_False in Hrun by done. done. }
  destruct (existsb _ _) eqn:Hsame.
  { rewrite decide_False in Hrun by apply insert_non_empty.
    by apply insert_non_empty in Hrun. }
  rewrite decide_True in Hrun by done.
  destruct (try_connect gw_type user_input) eqn:Hconnect; cycle 1.
  { by apply insert_non_empty in Hrun. }
  split; [done|]. split.
  - intros entry Hentry. destruct (_is_same_device gw_type user_input entry) eqn:Hd; [|done].
    assert (existsb (_is_same_device gw_type user_input) (current_entries self) = true)
      as Hex; [|congruence].
    apply existsb_exists. exists entry. split; [by apply list_elem_of_In|done].
  - intros Hfile. subst errors2. rewrite Hfile in Hempty. subst errors1.
    assert (_validate_version version ∪ errors = ∅) as Hunion.
    { destruct (decide (gw_type ≠ CONF_GATEWAY_TYPE_MQTT)); [|by simplify_eq].
      apply bind_Ok in Hdevice as (device & _ & Hcheck).
      unfold try_except_Invalid in Hcheck.
      destruct (if decide (gw_type = CONF_GATEWAY_TYPE_TCP) then is_socket_address
                else is_serial_port) as [|[]]; simplify_eq; try done.
      by apply insert_non_empty in Hcheck. }
    assert (_validate_version version = ∅) as Hv by (by eapply map_positive_l).
    rewrite Hv, (left_id ∅ (∪)) in Hunion. split; [done|]. split; [eauto|].
    intros Hgw. rewrite decide_True in Hdevice by done.
    apply bind_Ok in Hdevice as (device & Hdev & Hcheck).
    apply subscript_Ok in Hdev. exists device.
    unfold try_except_Invalid in Hcheck.
    destruct (decide (gw_type = CONF_GATEWAY_TYPE_TCP)).
    + destruct (is_socket_address device) as [checked|[]]; simplify_eq; eauto.
      by apply insert_non_empty in Hcheck.
    + destruct (is_serial_port device) as [checked|[]]; simplify_eq; eauto.
      by apply insert_non_empty in Hcheck.
Qed.

(** X7. A device that fails the check for its gateway type is reported
    under the device field, as [invalid_ip] for TCP and [invalid_serial]
    otherwise, on top of the errors found before; the gateway is then not
    contacted. (Stated for a submission without persistence file.) *)
Theorem device_check_failure_reported (self : Flow) (gw_type : string)
    (errors : gmap string string) (user_input : gmap string value)
    (version device : value) (msg : string) :
  gw_type ≠ CONF_GATEWAY_TYPE_MQTT →
  user_input !! CONF_VERSION = Some version →
  user_input !! CONF_DEVICE = Some device →
  (if decide (gw_type = CONF_GATEWAY_TYPE_TCP)
   then is_socket_address device else is_serial_port device) = Raise (Invalid msg) →
  truthy (default VNone (user_input !! CONF_PERSISTENCE_FILE)) = false →
  validate_common self gw_type errors user_input
  = Ok (<[CONF_DEVICE := if decide (gw_type = CONF_GATEWAY_TYPE_TCP)
                         then "invalid_ip" else "invalid_serial"]>
          (_validate_version version ∪ errors)).
Proof.
  intros Hgw Hversion Hdevice Hcheck Hfile. unfold validate_common.
  rewrite (subscript_Some _ _ _ Hversion). simpl.
  rewrite decide_True by done. rewrite (subscript_Some _ _ _ Hdevice). simpl.
  assert ((if decide (gw_type = CONF_GATEWAY_TYPE_TCP) then is_socket_address
           else is_serial_port) device = Raise (Invalid msg)) as ->.
  { by destruct (decide (gw_type = CONF_GATEWAY_TYPE_TCP)). }
  simpl. rewrite Hfile.
  set (found := <[CONF_DEVICE := _]> _).
  assert (found ≠ ∅) as Hfound by apply insert_non_empty.
  rewrite (decide_False (P := found = ∅)) by done.
  by rewrite (decide_False (P := found = ∅)) by done.
Qed.


(** X8. A form that is shown again offers what was submitted: the default
    of the device field is the submitted device whatever the gateway type,
    the suggested version is the submitted version (1.4 when there is
    none), and the default persistence file is the submitted one (the
    empty string when there is none). *)
Theorem resubmitted_values_are_defaults (user_input : gmap string value)
    (gw_type : string) :
  (∀ device, user_input !! CONF_DEVICE = Some device →
     ∃ v, schema_get CONF_DEVICE (base_schema user_input gw_type)
          = Some (vol_Required CONF_DEVICE (Some device) None, v))
  ∧ (∃ v, schema_get CONF_VERSION (_get_common_schema user_input)
          = Some (vol_Required CONF_VERSION None
                    (Some [(KStr "suggested_value",
                            default (VStr "1.4") (user_input !! CONF_VERSION))]),
                  v))
  ∧ (CONF_VERSION ≠ CONF_PERSISTENCE_FILE →
       schema_get CONF_PERSISTENCE_FILE (_get_common_schema user_input)
       = Some (vol_Optional CONF_PERSISTENCE_FILE
                 (Some (default (VStr "") (user_input !! CONF_PERSISTENCE_FILE))) None,
               vol_All [vol_str; on_str validate_persistence_file])).
Proof.
  split; [|split].
  - intros device Hdevice. unfold base_schema, schema_of. simpl. rewrite Hdevice. simpl.
    destruct (decide (CONF_DEVICE = CONF_BAUD_RATE)); simpl;
      rewrite decide_True by done; eauto.
  - unfold _get_common_schema, schema_of. simpl.
    destruct (decide (CONF_VERSION = CONF_PERSISTENCE_FILE)); simpl;
      rewrite decide_True by done; eauto.
  - intros Hne. unfold _get_common_schema, schema_of. simpl.
    rewrite decide_False by done. simpl. rewrite decide_False by done.
    by rewrite decide_True.
Qed.

End more.

(** ** The properties at the sample installation *)

Lemma validation_reads_required_keys_witness :
  is_Some (mqtt_input !! "topic_in_prefix")
  ∧ is_Some (mqtt_input !! "topic_out_prefix")
  ∧ is_Some (mqtt_input !! "version")
  ∧ ("MQTT" ≠ "MQTT" → is_Some (mqtt_input !! "device")).
Proof.
  refine (@validation_reads_required_keys sample_const sample_helpers sample_flow "MQTT"
            mqtt_input ∅ _).
  vm_compute. reflexivity.
Defined.

Lemma entry_without_device_raises_witness :
  @async_step sample_const sample_helpers gw_mqtt sample_flow (Some mqtt_input_no_device)
  = Raise (KeyError "device").
Proof.
  refine (@entry_without_device_raises sample_const sample_helpers sample_flow gw_mqtt
            mqtt_input_no_device _ _ _).
  - intros _. vm_compute. reflexivity.
  - vm_compute. reflexivity.
  - vm_compute. reflexivity.
Defined.

Lemma validate_topic_outcomes_witness :
  @_validate_topic sample_const strict_helpers sample_flow
    {[ "topic_in_prefix" := VStr "" ]} ∅ "topic_in_prefix"
  = Ok {[ "topic_in_prefix" := "invalid_topic_in_prefix_topic" ]}
  ∧ @_validate_topic sample_const strict_helpers busy_flow
      mqtt_input ∅ "topic_in_prefix"
    = Ok {[ "topic_in_prefix" := "duplicate_topic_in_prefix" ]}.
Proof.
  split.
  - refine (proj1 (@validate_topic_outcomes sample_const strict_helpers sample_flow
                     {[ "topic_in_prefix" := VStr "" ]} ∅ "topic_in_prefix" (VStr "") _)
              "empty topic" _); vm_compute; reflexivity.
  - refine (proj1 (proj2 (@validate_topic_outcomes sample_const strict_helpers busy_flow
                            mqtt_input ∅ "topic_in_prefix" (VStr "mygateway-out") _))
              (VStr "mygateway-out") _ _); vm_compute; reflexivity.
Defined.

Lemma validate_common_success_witness :
  @try_connect sample_helpers "MQTT" mqtt_input = true.
Proof.
  refine (proj1 (@validate_common_success sample_const sample_helpers sample_flow "MQTT"
                   ∅ mqtt_input _)).
  vm_compute. reflexivity.
Defined.

Lemma device_check_failure_reported_witness :
  @validate_common sample_const strict_helpers sample_flow "TCP" ∅ tcp_input
  = Ok {[ "device" := "invalid_ip" ]}.
Proof.
  refine (@device_check_failure_reported sample_const strict_helpers sample_flow "TCP" ∅
            tcp_input (VStr "2.3") (VStr "not-an-address") "not an address" _ _ _ _ _);
    try (vm_compute; reflexivity).
  discriminate.
Defined.

End mysensors_more.

(** * Further properties of the XS1 switch platform *)

Module xs1_more.
Import xs1 xs1_spec xs1_props.

Local Open Scope list_scope.

Section more.
Context {api actuator : Type} `{XS1Api api actuator}.

(** A host that appends the entities it is given to its registry. *)
Lemma setup_platform_register (actuators : list actuator) (st : api)
    (registry : list (XS1SwitchEntity actuator)) :
  setup_platform actuators st (λ entities registry, registry ++ entities) registry
  = registry ++ (@Build_XS1SwitchEntity actuator <$> filter (exposed st) actuators).
Proof. unfold setup_platform. by rewrite collect_entities. Qed.

Lemma filter_keeps_all (st : api) (l : list actuator) :
  length (filter (exposed st) l) = length l ↔ ∀ a, a ∈ l → exposed st a.
Proof.
  induction l as [|a l IH]; simpl.
  - split; [|done]. intros _ a Ha. by apply elem_of_nil in Ha.
  - rewrite filter_cons. destruct (decide (exposed st a)) as [Hyes|Hno]; simpl.
    + split.
      * intros Hlen b Hb. apply elem_of_cons in Hb as [->|Hb]; [done|].
        apply IH; [lia|done].
      * intros Hall. f_equal. apply IH. intros b Hb. apply Hall. by right.
    + split.
      * intros Hlen. pose proof (length_filter (exposed st) l). lia.
      * intros Hall. destruct Hno. apply Hall. left.
Qed.

(** X15. With a host that appends what it is given to its registry,
    setting up two lists of actuators one after the other registers the
    same entities as setting up their concatenation; an empty list
    registers nothing, a list never registers more entities than it has
    actuators, and it registers one for every actuator exactly when all of
    them are switches or dimmers. *)
Theorem setup_platform_in_parts (l1 l2 : list actuator) (st : api)
    (registry : list (XS1SwitchEntity actuator)) :
  let register := λ entities registry : list (XS1SwitchEntity actuator), registry ++ entities in
  setup_platform (l1 ++ l2) st register registry
  = setup_platform l2 st register (setup_platform l1 st register registry)
  ∧ setup_platform [] st register registry = registry
  ∧ (length (setup_platform l1 st register []) ≤ length l1)%nat
  ∧ (length (setup_platform l1 st register []) = length l1
     ↔ ∀ a, a ∈ l1 → act_type a st = SWITCH ∨ act_type a st = DIMMER).
Proof.
  intros register. subst register. rewrite !setup_platform_register.
  split; [|split; [|split]].
  - by rewrite filter_app, fmap_app, app_assoc.
  - simpl. by rewrite app_nil_r.
  - simpl. rewrite length_fmap. apply length_filter.
  - simpl. rewrite length_fmap. apply filter_keeps_all.
Qed.

End more.

End xs1_more.

(** * Further properties of the ZHA diagnostics *)

Module zha_more.
Import zha zha_spec PyFacts zha_props.

Local Open Scope list_scope.

(** ** More about dictionaries *)

Section assoc.
Context {K V : Type} `{EqDecision K}.
Implicit Types (k : K) (v : V) (d items : list (K * V)).

Lemma dict_set_keys k v d k' : k' ∈ (dict_set k v d).*1 ↔ k' = k ∨ k' ∈ d.*1.
Proof.
  induction d as [|[k0 v0] d IH]; simpl.
  - rewrite list_elem_of_singleton, elem_of_nil. tauto.
  - destruct (decide (k0 = k)) as [->|Hne]; simpl; rewrite !elem_of_cons.
    + tauto.
    + rewrite IH. tauto.
Qed.

Lemma dict_set_elem_of k v d kv : kv ∈ dict_set k v d → kv = (k, v) ∨ kv ∈ d.
Proof.
  induction d as [|[k0 v0] d IH]; simpl.
  - rewrite list_elem_of_singleton. tauto.
  - destruct (decide (k0 = k)) as [->|Hne]; rewrite !elem_of_cons; [tauto|].
    intros [?|?]; [tauto|]. destruct IH; tauto.
Qed.

Lemma dict_update_keys d items k : k ∈ (dict_update d items).*1 ↔ k ∈ d.*1 ∨ k ∈ items.*1.
Proof.
  unfold dict_update. revert d.
  induction items as [|[k0 v0] items IH]; intros d; simpl.
  - rewrite elem_of_nil. tauto.
  - rewrite IH, dict_set_keys, elem_of_cons. simpl. tauto.
Qed.

Lemma dict_update_elem_of d items kv : kv ∈ dict_update d items → kv ∈ d ∨ kv ∈ items.
Proof.
  unfold dict_update. revert d.
  induction items as [|[k0 v0] items IH]; intros d; simpl; [tauto|].
  intros Hin. apply IH in Hin as [Hin|Hin].
  - apply dict_set_elem_of in Hin as [->|Hin]; [right; left|tauto].
  - right. by right.
Qed.

Lemma fold_left_dict_update {A} (kf : A → K) (vf : A → V) (l : list A) d :
  fold_left (λ acc a, dict_set (kf a) (vf a) acc) l d
  = dict_update d (map (λ a, (kf a, vf a)) l).
Proof.
  unfold dict_update. revert d. induction l as [|a l IH]; intros d; simpl; [done|].
  by rewrite IH.
Qed.

End assoc.

Lemma length_zeros_append k s : String.length (zeros k +:+ s) = k + String.length s.
Proof. induction k as [|k IH]; simpl; [done|]. by rewrite IH. Qed.


(** X10. [shallow_asdict] turns a dataclass instance into the dictionary
    of its fields, in their order and each converted in turn (so nested
    dataclasses become nested dictionaries); an object with [as_dict] is
    replaced by what that method returns, and any other value is kept as
    it is. *)
Theorem shallow_asdict_dataclass (fields : list (string * pyobj)) :
  NoDup fields.*1 →
  shallow_asdict (Dataclass fields)
  = VDict (map (λ field, (KStr field.1, shallow_asdict field.2)) fields)
  ∧ (∀ name obj, (name, obj) ∈ fields →
       ∃ d, shallow_asdict (Dataclass fields) = VDict d
            ∧ dict_get (KStr name) d = Some (shallow_asdict obj)
            ∧ (∀ v, obj = HasAsDict v ∨ obj = Plain v → dict_get (KStr name) d = Some v)).
Proof.
  intros Hnames.
  assert (NoDup (map (λ field : string * pyobj, (KStr field.1, shallow_asdict field.2))
                   fields).*1) as Hkeys.
  { rewrite <- list_fmap_compose.
    change (NoDup ((KStr ∘ fst) <$> fields)). rewrite list_fmap_compose.
    apply NoDup_fmap_2; [|done]. by intros a b [= ->]. }
  assert (shallow_asdict (Dataclass fields)
          = VDict (map (λ field, (KStr field.1, shallow_asdict field.2)) fields)) as Heq.
  { simpl. f_equal.
    rewrite (fold_left_dict_update (λ field : string * pyobj, KStr field.1)
               (λ field, shallow_asdict field.2)).
    by apply (dict_update_NoDup []). }
  split; [done|]. intros name obj Hin. eexists. split; [exact Heq|].
  assert (dict_get (KStr name)
            (map (λ field : string * pyobj, (KStr field.1, shallow_asdict field.2)) fields)
          = Some (shallow_asdict obj)) as Hget.
  { apply dict_get_elem_of; [done|].
    apply list_elem_of_fmap. by exists (name, obj). }
  split; [done|]. intros v [->| ->]; exact Hget.
Qed.


Section more.
Context `{Const} `{Binary64} {Hass : Type} `{Helpers Hass}.

(** X11. When [get_cluster_attr_data] returns, the unsupported-attributes
    section has a key for each attribute the cluster lists as unsupported,
    the rendered id of what [find_attribute] gives for it, and no other
    key; each entry holds the name of such an attribute. With nothing
    unsupported the section is empty. When [find_attribute] raises for one
    of the listed attributes, [get_cluster_attr_data] raises. *)
Theorem unsupported_attributes_section (cluster : Cluster) :
  (∀ data,
     get_cluster_attr_data cluster = Ok data →
     ∃ attrs unsupported,
       data = [(KStr ATTRIBUTES, VDict attrs); (KStr UNSUPPORTED_ATTRIBUTES, VDict unsupported)]
       ∧ (∀ k, k ∈ dict_keys unsupported
               ↔ ∃ u_attr attr_def,
                   u_attr ∈ unsupported_attributes cluster
                   ∧ find_attribute cluster u_attr = Ok attr_def
                   ∧ k = KStr (format_0x04x (attr_id attr_def)))
       ∧ (∀ k v, dict_get k unsupported = Some v →
            ∃ u_attr attr_def,
              u_attr ∈ unsupported_attributes cluster
              ∧ find_attribute cluster u_attr = Ok attr_def
              ∧ k = KStr (format_0x04x (attr_id attr_def))
              ∧ v = VDict [(KStr ATTR_ATTRIBUTE_NAME, VStr (attr_name attr_def))])
       ∧ (unsupported_attributes cluster = [] → unsupported = []))
  ∧ (∀ u_attr e,
       u_attr ∈ unsupported_attributes cluster →
       find_attribute cluster u_attr = Raise e →
       ∃ e', get_cluster_attr_data cluster = Raise e').
Proof.
  split.
  - intros data Hdata.
    apply get_cluster_attr_data_Ok in Hdata as (items & Hitems & ->).
    apply for_each_Forall2 in Hitems.
    assert (∀ kv, kv ∈ items
                  ↔ ∃ u_attr attr_def,
                      u_attr ∈ unsupported_attributes cluster
                      ∧ find_attribute cluster u_attr = Ok attr_def
                      ∧ kv = (KStr (format_0x04x (attr_id attr_def)),
                              VDict [(KStr ATTR_ATTRIBUTE_NAME,
                                      VStr (attr_name attr_def))])) as Hin.
    { intros kv. split.
      - intros Hkv. apply list_elem_of_lookup in Hkv as [i Hi].
        destruct (Forall2_lookup_r _ _ _ _ _ Hitems Hi) as (u & Hu & Hkv).
        apply unsupported_item_Ok in Hkv as (attr_def & Hdef & ->).
        exists u, attr_def. split; [by eapply list_elem_of_lookup_2|done].
      - intros (u & attr_def & Hu & Hdef & ->).
        apply list_elem_of_lookup in Hu as [i Hi].
        destruct (Forall2_lookup_l _ _ _ _ _ Hitems Hi) as (kv & Hkv & Hitem).
        apply unsupported_item_Ok in Hitem as (attr_def' & Hdef' & ->).
        rewrite Hdef in Hdef'. injection Hdef' as <-.
        by eapply list_elem_of_lookup_2. }
    eexists _, (dict_of items). split; [reflexivity|]. split; [|split].
    + intros k. unfold dict_keys, dict_of.
      change (map fst ?l) with (l.*1).
      rewrite dict_update_keys. simpl. rewrite elem_of_nil.
      rewrite list_elem_of_fmap. split.
      * intros [[]|([k' v] & -> & Hkv)]. apply Hin in Hkv as (u & d & Hu & Hd & [= -> ->]).
        eauto.
      * intros (u & d & Hu & Hd & ->). right. eexists (_, _). split; [done|].
        apply Hin. eauto.
    + intros k v Hget. apply dict_get_Some in Hget.
      unfold dict_of in Hget. apply dict_update_elem_of in Hget as [Hget|Hget].
      * by apply elem_of_nil in Hget.
      * apply Hin in Hget as (u & d & Hu & Hd & [= -> ->]). eauto 10.
    + intros Hnone. rewrite Hnone in Hitems. by inversion Hitems.
  - intros u_attr e Hu He.
    destruct (get_cluster_attr_data cluster) as [data|e'] eqn:Hdata; [|eauto].
    assert (resolves cluster) as Hres by (apply get_cluster_attr_data_returns; eauto).
    rewrite resolves_spec in Hres. destruct (Hres u_attr Hu) as [attr_def Hdef].
    congruence.
Qed.

(** The number of entries the loop over the endpoints makes. *)
Lemma endpoint_entries_count (g : Endpoint → option value) (m : gmap N Endpoint) :
  (∀ ep_id endpoint, m !! ep_id = Some endpoint → ep_id ≠ 0%N → is_Some (g endpoint)) →
  length (omap (item (λ ep_id, KInt (Z.of_N ep_id))
                  (λ ep_id endpoint, if decide (ep_id = 0%N) then None else g endpoint))
            (map_to_list m))
  = size (delete 0%N m).
Proof.
  induction m as [|i x m Hi IH] using map_ind; intros Hall.
  - rewrite delete_empty, map_size_empty, map_to_list_empty. reflexivity.
  - rewrite (Permutation_length (omap_Permutation _ _ _ (map_to_list_insert m i x Hi))).
    csimpl. unfold item at 1. simpl.
    assert (length (omap (item (λ ep_id, KInt (Z.of_N ep_id))
                            (λ ep_id endpoint,
                               if decide (ep_id = 0%N) then None else g endpoint))
                      (map_to_list m))
            = size (delete 0%N m)) as Hrest.
    { apply IH. intros ep e Hep. apply Hall. rewrite lookup_insert_ne; [done|].
      intros ->. congruence. }
    destruct (decide (i = 0%N)) as [->|Hne]; simpl.
    + by rewrite Hrest, delete_insert_eq.
    + destruct (Hall i x) as [v ->]; [apply lookup_insert_eq|done|]. simpl.
      rewrite Hrest, delete_insert_ne by done.
      rewrite map_size_insert_None; [done|]. by rewrite lookup_delete_ne.
Qed.

(** X12. The cluster details that [get_endpoint_cluster_attr_data] returns
    have as many entries as the device has endpoints other than endpoint
    0; for a device that has only endpoint 0, or no endpoint at all, it
    returns empty cluster details. *)
Theorem cluster_details_count (zha_device : ZHADevice) :
  (∀ details,
     get_endpoint_cluster_attr_data zha_device = Ok details →
     length details = size (delete 0%N (endpoints (device zha_device))))
  ∧ ((∀ ep_id, ep_id ≠ 0%N → endpoints (device zha_device) !! ep_id = None) →
     get_endpoint_cluster_attr_data zha_device = Ok []).
Proof.
  assert (∀ details,
            get_endpoint_cluster_attr_data zha_device = Ok details →
            length details = size (delete 0%N (endpoints (device zha_device)))) as Hlen.
  { intros details Hrun. apply get_endpoint_cluster_attr_data_Ok in Hrun as [-> Hall].
    apply (endpoint_entries_count (λ endpoint, to_option (VDict <$> endpoint_details endpoint))).
    intros ep_id endpoint Hep Hne.
    destruct (proj1 (endpoint_details_returns endpoint)) as [entry ->]; [|simpl; eauto].
    by apply (Hall ep_id endpoint). }
  split; [done|]. intros Honly.
  destruct (proj1 (get_endpoint_cluster_attr_data_returns zha_device)) as [details Hrun].
  { intros ep_id endpoint Hep Hne. rewrite Honly in Hep by done. discriminate. }
  rewrite Hrun. f_equal. apply length_zero_iff_nil. rewrite (Hlen _ Hrun).
  apply map_size_empty_iff, map_eq. intros ep. rewrite lookup_empty.
  destruct (decide (ep = 0%N)) as [->|Hne].
  - apply lookup_delete_eq.
  - rewrite lookup_delete_ne by done. by apply Honly.
Qed.


(** X14. The energy-scan section has one entry per scanned channel (none
    for an empty scan) and is a rescaling of the raw energies: a raw 0
    reports 0, a raw 255 reports 100, and of two channels the one with the
    higher raw energy never reports less. *)
Theorem energy_scan_section_scale (scan : gmap Z Q) :
  length (energy_scan_section scan) = size scan
  ∧ (scan = ∅ → energy_scan_section scan = [])
  ∧ (∀ channel energy, scan !! channel = Some energy →
       ∃ percent,
         dict_get (KInt channel) (energy_scan_section scan) = Some (VFloat percent)
         ∧ ((energy == 0)%Q → (percent == 0)%Q)
         ∧ ((energy == 255)%Q → (percent == 100)%Q))
  ∧ (∀ c1 c2 e1 e2, scan !! c1 = Some e1 → scan !! c2 = Some e2 → (e1 <= e2)%Q →
       ∃ p1 p2,
         dict_get (KInt c1) (energy_scan_section scan) = Some (VFloat p1)
         ∧ dict_get (KInt c2) (energy_scan_section scan) = Some (VFloat p2)
         ∧ (p1 <= p2)%Q).
Proof.
  assert (∀ channel energy, scan !! channel = Some energy →
            dict_get (KInt channel) (energy_scan_section scan)
            = Some (VFloat (float_div (float_mul 100 energy) 255))) as Hget.
  { intros channel energy Hc. rewrite energy_scan_section_items.
    rewrite (dict_get_map_items KInt). by rewrite Hc. }
  assert (length (energy_scan_section scan) = size scan) as Hlen.
  { rewrite energy_scan_section_items.
    rewrite <- (map_item_ext KInt
                  (λ ce : Z * Q, (KInt ce.1, VFloat (float_div (float_mul 100 ce.2) 255)))
                  (λ _ energy, VFloat (float_div (float_mul 100 energy) 255))) by done.
    rewrite length_map. apply length_map_to_list. }
  split; [done|]. split; [|split].
  - intros ->. apply length_zero_iff_nil. by rewrite Hlen, map_size_empty.
  - intros channel energy Hc. eexists. split; [by apply Hget|].
    unfold float_div, float_mul. split; intros He.
    + apply (round_small_int 0); [done|].
      assert (round (100 * energy) == 0)%Q as ->.
      { apply (round_small_int 0); [done|]. rewrite He. reflexivity. }
      reflexivity.
    + apply (round_small_int 100); [done|].
      assert (round (100 * energy) == 25500)%Q as ->.
      { apply (round_small_int 25500); [done|]. rewrite He. reflexivity. }
      reflexivity.
  - intros c1 c2 e1 e2 Hc1 Hc2 Hle. eexists _, _.
    split; [by apply Hget|]. split; [by apply Hget|]. by apply percent_monotone.
Qed.

End more.

(** ** The properties at the sample network *)

Lemma shallow_asdict_dataclass_witness :
  shallow_asdict sample_state
  = VDict [(KStr "node_info", VDict [(KStr "nwk", VInt 0); (KStr "ieee", VStr "00:11")]);
           (KStr "network_info", VDict [(KStr "channel", VInt 15)]);
           (KStr "counters", VNone)].
Proof.
  refine (eq_trans (proj1 (shallow_asdict_dataclass _ _)) _).
  - apply (bool_decide_unpack _). vm_compute. exact I.
  - reflexivity.
Defined.


End zha_more.
